(** * Verification of the configuration loader [config/core.py]

    The development embeds the path resolver of [config/core.py] and the
    variable table of [config/cfgvars.py].

    Conventions of the embedding:
    - a Python [str] is a [string]; one [ascii] stands for one code point
      below 256;
    - the host is POSIX: [os.sep] is ["/"] and [os.path] is [posixpath]
      (the usage documented in [core.py] is [base_data_dir="/mnt/data/"]);
    - the file system and the working directory are an explicit [host]
      record read by the functions that consult them;
    - a Python [dict] is an association list in insertion order;
    - the module globals [_vars] and [_initialized] and the names injected
      by [globals().update(_vars)] form the explicit [state];
    - printed lines and warnings are collected as a list of [event]s. *)

From Stdlib Require Import Bool Arith Lia List Ascii String ZArith.
Import ListNotations.
Open Scope string_scope.
Set Warnings "-register-all".

(* ================================================================== *)
(** ** Python [str] operations used by the module *)

Module PyStr.

(** [s.startswith(p)] *)
Definition startswith (p s : string) : bool := String.prefix p s.

(** [s.endswith(p)] *)
Fixpoint endswith (p s : string) : bool :=
  (s =? p) ||
  match s with
  | EmptyString => false
  | String _ r => endswith p r
  end.

(** [c in s] for a one-character [c] *)
Fixpoint has_char (c : ascii) (s : string) : bool :=
  match s with
  | EmptyString => false
  | String a r => Ascii.eqb a c || has_char c r
  end.

(** [s.replace(old, new)] for a non-empty [old]: occurrences are found
    from the left and do not overlap.  [skip] counts the characters of an
    occurrence still to be dropped. *)
Fixpoint replace_from (skip : nat) (old new s : string) : string :=
  match s with
  | EmptyString => EmptyString
  | String c r =>
      match skip with
      | S k => replace_from k old new r
      | O =>
          if String.prefix old s
          then new ++ replace_from (String.length old - 1) old new r
          else String c (replace_from 0 old new r)
      end
  end.

Definition replace (old new s : string) : string := replace_from 0 old new s.

(** [s.split(c)] for a one-character separator: never the empty list. *)
Fixpoint split (c : ascii) (s : string) : list string :=
  match s with
  | EmptyString => [EmptyString]
  | String a r =>
      if Ascii.eqb a c then EmptyString :: split c r
      else match split c r with
           | h :: t => String a h :: t
           | [] => [String a EmptyString]
           end
  end.

(** [sep.join(parts)] *)
Fixpoint join (sep : string) (parts : list string) : string :=
  match parts with
  | [] => EmptyString
  | [p] => p
  | p :: rest => p ++ sep ++ join sep rest
  end.

(** [x in parts] *)
Definition mem (x : string) (parts : list string) : bool :=
  existsb (String.eqb x) parts.

(** [parts.index(x)]: position of the first occurrence, [None] for the
    [ValueError] of an absent element. *)
Fixpoint index (x : string) (parts : list string) : option nat :=
  match parts with
  | [] => None
  | p :: rest =>
      if String.eqb p x then Some 0
      else option_map S (index x rest)
  end.

End PyStr.

(* ================================================================== *)
(** ** Exceptions and results *)

Inductive exn : Type :=
| ValueError (msg : string)
| TypeError (msg : string)
| AttributeError (msg : string)
| NameError (msg : string).

Inductive result (A : Type) : Type :=
| Ok (a : A)
| Raise (e : exn).
Arguments Ok {A} a.
Arguments Raise {A} e.

(* ================================================================== *)
(** ** The host: [os.sep], [os.getcwd], [os.path] on POSIX *)

Record host : Type := {
  getcwd : string;                 (* os.getcwd() *)
  path_exists : string -> bool     (* os.path.exists *)
}.

Module PosixPath.
Import PyStr.

Definition sep_char : ascii := "/"%char.
Definition sep : string := "/".

(** [posixpath.isabs] *)
Definition isabs (s : string) : bool := startswith sep s.

(** The loop of [posixpath.join] over the arguments after the first. *)
Fixpoint join_loop (path : string) (p : list string) : string :=
  match p with
  | [] => path
  | b :: rest =>
      join_loop
        (if startswith sep b then b
         else if (path =? "") || endswith sep path then path ++ b
         else path ++ sep ++ b)
        rest
  end.

(** [posixpath.join]: the first argument is required. *)
Definition join (args : list string) : result string :=
  match args with
  | [] => Raise (TypeError "join() missing 1 required positional argument: 'a'")
  | a :: p => Ok (join_loop a p)
  end.

(** The loop of [posixpath.normpath] over the components. *)
Fixpoint normpath_loop (initial_slashes : nat) (new_comps comps : list string)
  : list string :=
  match comps with
  | [] => new_comps
  | comp :: rest =>
      if (comp =? "") || (comp =? ".") then
        normpath_loop initial_slashes new_comps rest
      else if negb (comp =? "..")
              || (Nat.eqb initial_slashes 0 && Nat.eqb (List.length new_comps) 0)
              || (negb (Nat.eqb (List.length new_comps) 0)
                  && (last new_comps "" =? ".."))
      then normpath_loop initial_slashes (new_comps ++ [comp]) rest
      else if negb (Nat.eqb (List.length new_comps) 0)
      then normpath_loop initial_slashes (removelast new_comps) rest
      else normpath_loop initial_slashes new_comps rest
  end.

Fixpoint repeat_sep (n : nat) : string :=
  match n with
  | O => ""
  | S k => sep ++ repeat_sep k
  end.

(** [posixpath.normpath] *)
Definition normpath (path : string) : string :=
  if path =? "" then "."
  else
    let initial_slashes :=
      if startswith sep path then
        if startswith "//" path && negb (startswith "///" path) then 2 else 1
      else 0 in
    let comps := normpath_loop initial_slashes [] (split sep_char path) in
    let path' := PyStr.join sep comps in
    let path'' := repeat_sep initial_slashes ++ path' in
    if path'' =? "" then "." else path''.

(** [posixpath.abspath] *)
Definition abspath (h : host) (path : string) : string :=
  if isabs path then normpath path
  else normpath (join_loop (getcwd h) [path]).

End PosixPath.

(* ================================================================== *)
(** ** Python values and dictionaries *)

(** A [dict] keeps its keys in insertion order; assigning to a key that is
    present keeps the key's position. *)
Definition dict (V : Type) : Type := list (string * V).

Fixpoint dict_get {V : Type} (k : string) (d : dict V) : option V :=
  match d with
  | [] => None
  | (k', v) :: r => if k' =? k then Some v else dict_get k r
  end.

Fixpoint dict_set {V : Type} (k : string) (v : V) (d : dict V) : dict V :=
  match d with
  | [] => [(k, v)]
  | (k', v') :: r => if k' =? k then (k', v) :: r else (k', v') :: dict_set k v r
  end.

(** [d.update(other)] *)
Definition dict_update {V : Type} (d other : dict V) : dict V :=
  fold_left (fun acc kv => dict_set (fst kv) (snd kv) acc) other d.

Definition dict_keys {V : Type} (d : dict V) : list string := map fst d.

(** The values that occur in the variable table and in the module
    namespace.  A float is kept as its decimal literal [m * 10^e]; modules,
    functions, lambdas and typing objects are opaque. *)
Inductive value : Type :=
| VNone
| VBool (b : bool)
| VInt (z : Z)
| VFloat (m e : Z)
| VStr (s : string)
| VList (l : list value)
| VTuple (t : list value)
| VDict (d : list (string * value))
| VObj (descr : string).

(** Truth value of an object in a condition. *)
Definition truthy (v : value) : bool :=
  match v with
  | VNone => false
  | VBool b => b
  | VInt z => negb (Z.eqb z 0)
  | VFloat m _ => negb (Z.eqb m 0)
  | VStr s => negb (s =? "")
  | VList l => negb (Nat.eqb (List.length l) 0)
  | VTuple t => negb (Nat.eqb (List.length t) 0)
  | VDict d => negb (Nat.eqb (List.length d) 0)
  | VObj _ => true
  end.

(* ================================================================== *)
(** ** Output, and the monad of the module's functions

    The state is the namespace of the module [config.core] (what
    [globals()] returns); it holds [_vars] and [_initialized] among the
    other names.  Calls to the module's own functions and to the imported
    modules are resolved statically. *)

Inductive event : Type :=
| Stdout (line : string)
| StdoutAlreadyInitialised (base : value)
| Warning (msg : string).

Definition namespace : Type := dict value.

Definition M (A : Type) : Type := namespace -> result A * namespace * list event.

Definition ret {A : Type} (a : A) : M A := fun g => (Ok a, g, []).

Definition bind {A B : Type} (m : M A) (k : A -> M B) : M B :=
  fun g =>
    match m g with
    | (Ok a, g', out) =>
        match k a g' with
        | (r, g'', out') => (r, g'', (out ++ out')%list)
        end
    | (Raise e, g', out) => (Raise e, g', out)
    end.

Definition raise {A : Type} (e : exn) : M A := fun g => (Raise e, g, []).

Definition lift {A : Type} (r : result A) : M A := fun g => (r, g, []).

Definition emit (ev : event) : M unit := fun g => (Ok tt, g, [ev]).

(** Reading a global name; an unbound name is a [NameError], which the
    module never catches. *)
Definition read_global (name : string) : M value :=
  fun g =>
    match dict_get name g with
    | Some v => (Ok v, g, [])
    | None => (Raise (NameError ("name '" ++ name ++ "' is not defined")), g, [])
    end.

(** Assignment to a name declared [global]. *)
Definition assign_global (name : string) (v : value) : M unit :=
  fun g => (Ok tt, dict_set name v g, []).

(** [globals().update(d)] *)
Definition globals_update (d : dict value) : M unit :=
  fun g => (Ok tt, dict_update g d, []).

Declare Scope py_scope.
Delimit Scope py_scope with py.
Notation "x <- m ;; k" := (bind m (fun x => k))
  (at level 61, m at next level, right associativity) : py_scope.
Notation "m ;;; k" := (bind m (fun _ => k))
  (at level 61, right associativity) : py_scope.
Open Scope py_scope.

Fixpoint for_each {A : Type} (l : list A) (body : A -> M unit) : M unit :=
  match l with
  | [] => ret tt
  | a :: r => body a ;;; for_each r body
  end.

(* ================================================================== *)
(** ** [config/core.py] *)

Definition os_sep : string := PosixPath.sep.

(** [combine_paths]: every segment has its ["/"] and its backslashes
    replaced by [os.sep], then the segments are joined by [os.path.join]. *)
Definition combine_paths (segments : list string) : result string :=
  let clean_segments :=
    map (fun seg => PyStr.replace "\" os_sep (PyStr.replace "/" os_sep seg)) segments in
  PosixPath.join clean_segments.

(** [__import_vars_from_file], on the items of [vars(cfgvars)]. *)
Definition __import_vars_from_file (cfgvars_vars : dict value)
  : dict string * dict value :=
  fold_left
    (fun acc item =>
       let '(rel_paths, constants) := acc in
       let '(name, val) := item in
       match PyStr.startswith "_REL_" name, val with
       | true, VStr s => (dict_set (PyStr.replace "_REL_" "" name) s rel_paths, constants)
       | _, _ =>
           if negb (PyStr.startswith "_" name)
           then (rel_paths, dict_set name val constants)
           else (rel_paths, constants)
       end)
    cfgvars_vars ([], []).

(** [__set_base_data_dir] *)
Definition __set_base_data_dir (h : host) (path : string) : result string :=
  let base_data_dir := PosixPath.abspath h path in
  if negb (path_exists h base_data_dir)
  then Raise (ValueError ("Base data directory does not exist: '" ++ base_data_dir ++ "'"))
  else Ok base_data_dir.

(** [__auto_set_base_data_dir] *)
Definition __auto_set_base_data_dir (h : host) (keyword : string) : result string :=
  let cwd := getcwd h in
  let path_parts := PyStr.split PosixPath.sep_char cwd in
  if negb (PyStr.mem keyword path_parts)
  then Raise (ValueError ("Could not auto-initialise data dir: keyword '" ++ keyword
                          ++ "' not found in cwd '" ++ cwd ++ "'"))
  else
    match PyStr.index keyword path_parts with
    | None => Raise (ValueError ("'" ++ keyword ++ "' is not in list"))
    | Some idx =>
        let base_data_dir := PyStr.join os_sep (firstn (idx + 1) path_parts) in
        __set_base_data_dir h base_data_dir
    end.

(** An argument that is given and true in a condition: a string other
    than the empty one ([None] is the default of both arguments). *)
Definition given (arg : option string) : option string :=
  match arg with
  | Some s => if s =? "" then None else Some s
  | None => None
  end.

(** [_vars.get(key, default)] on whatever [_vars] is bound to. *)
Definition vars_get (vars : value) (key : string) (default : value) : result value :=
  match vars with
  | VDict d =>
      match dict_get key d with
      | Some v => Ok v
      | None => Ok default
      end
  | _ => Raise (AttributeError "object has no attribute 'get'")
  end.

(** The dict comprehension of [initialise_config]. *)
Fixpoint resolve_paths (base_dir : string) (rel_paths : dict string)
  (acc : dict value) : result (dict value) :=
  match rel_paths with
  | [] => Ok acc
  | (name, rel_path) :: rest =>
      match combine_paths [base_dir; rel_path] with
      | Ok p => resolve_paths base_dir rest (dict_set name (VStr p) acc)
      | Raise e => Raise e
      end
  end.

(** [_vars.update(other)]: the dictionary bound to [_vars] is updated in
    place; it has no other reference. *)
Definition vars_update (other : dict value) : M unit :=
  vars <- read_global "_vars" ;;
  match vars with
  | VDict d => assign_global "_vars" (VDict (dict_update d other))
  | _ => raise (AttributeError "object has no attribute 'update'")
  end.

(** [initialise_config] *)
Definition initialise_config (h : host) (cfgvars_vars : dict value)
  (base_data_dir keyword : option string) (force verbose : bool) : M unit :=
  initialized <- read_global "_initialized" ;;
  if truthy initialized && negb force then
    if verbose then
      vars <- read_global "_vars" ;;
      base <- lift (vars_get vars "BASE_DATA_DIR" (VStr "<unknown>")) ;;
      emit (StdoutAlreadyInitialised base)
    else ret tt
  else
    base_dir <-
      match given base_data_dir, given keyword with
      | Some p, _ => lift (__set_base_data_dir h p)
      | None, Some k => lift (__auto_set_base_data_dir h k)
      | None, None =>
          raise (ValueError "Must provide either base_data_dir or keyword to initialise().")
      end ;;
    let '(rel_paths, constants) := __import_vars_from_file cfgvars_vars in
    resolved_paths <- lift (resolve_paths base_dir rel_paths []) ;;
    assign_global "_vars" (VDict [("BASE_DATA_DIR", VStr base_dir)]) ;;;
    vars_update resolved_paths ;;;
    vars_update constants ;;;
    vars <- read_global "_vars" ;;
    match vars with
    | VDict d => globals_update d
    | _ => raise (TypeError "object is not iterable")
    end ;;;
    assign_global "_initialized" (VBool true) ;;;
    if verbose
    then emit (Stdout ("Configuration initialised with base directory: " ++ base_dir))
    else ret tt.

(** [_warnif_not_initialised]: a warning is issued, nothing is raised.
    The text of the warning is cut after its first sentence. *)
Definition _warnif_not_initialised : M unit :=
  initialized <- read_global "_initialized" ;;
  if negb (truthy initialized)
  then emit (Warning "WARNING: Configuration not initialised.")
  else ret tt.

(** The classes of the pattern [^[\w\s\-./\\]+$] on code points below
    256: [\w] is the alphanumeric characters and the underscore, [\s] the
    white space characters. *)
Definition between (lo hi n : nat) : bool := Nat.leb lo n && Nat.leb n hi.

Definition is_word_char (c : ascii) : bool :=
  let n := nat_of_ascii c in
  between 48 57 n || between 65 90 n || Nat.eqb n 95 || between 97 122 n
  || existsb (Nat.eqb n) [170; 178; 179; 181; 185; 186; 188; 189; 190]
  || between 192 214 n || between 216 246 n || between 248 255 n.

Definition is_space_char (c : ascii) : bool :=
  let n := nat_of_ascii c in
  between 9 13 n || between 28 31 n || Nat.eqb n 32 || Nat.eqb n 133 || Nat.eqb n 160.

Definition path_char (c : ascii) : bool :=
  is_word_char c || is_space_char c
  || existsb (Ascii.eqb c) ["-"%char; "."%char; "/"%char; "\"%char].

Fixpoint all_chars (p : ascii -> bool) (s : string) : bool :=
  match s with
  | EmptyString => true
  | String c r => p c && all_chars p r
  end.

(** [re.match(path_pattern, s)] is a match: one or more characters of the
    class up to the end of the string (a final newline, which [$] lets
    pass, is in the class as well). *)
Definition re_match_path_pattern (s : string) : bool :=
  negb (s =? "") && all_chars path_char s.

(** The dictionary [pths] that the loop of [verify_paths] builds. *)
Definition verify_paths_pths (h : host) (vars : dict value) : dict bool :=
  fold_left
    (fun pths item =>
       let '(varname, varvalue) := item in
       match varvalue with
       | VStr s =>
           if PyStr.has_char "/" s || PyStr.has_char "\" s then
             if re_match_path_pattern s
             then dict_set varname (path_exists h s) pths
             else pths
           else pths
       | _ => pths
       end)
    vars [].

Fixpoint spaces (n : nat) : string :=
  match n with
  | O => ""
  | S k => String " " (spaces k)
  end.

(** The format [{s:w}] of a string: padded with spaces on the right. *)
Definition ljust (w : nat) (s : string) : string := s ++ spaces (w - String.length s).

(** [verify_paths].  The body ends without a [return]: the call evaluates
    to [None], which is the [None] of the result here. *)
Definition verify_paths (h : host) : M (option (dict bool)) :=
  _warnif_not_initialised ;;;
  vars <- read_global "_vars" ;;
  items <- match vars with
           | VDict d => ret d
           | _ => raise (AttributeError "object has no attribute 'items'")
           end ;;
  let pths := verify_paths_pths h items in
  (if Nat.ltb 0 (List.length pths) then
     emit (Stdout "") ;;;
     for_each pths
       (fun item =>
          let '(pth, pthvalue) := item in
          let flag := if pthvalue : bool then "exists" else "does not exist" in
          emit (Stdout (ljust 40 pth ++ ": path " ++ flag ++ ".")))
   else emit (Stdout "No path-like variables found.")) ;;;
  ret None.

(** Attribute access [cfg.NAME] on the module, the accessor that the
    module documents: a lookup in the namespace. *)
Definition module_getattr (g : namespace) (name : string) : result value :=
  match dict_get name g with
  | Some v => Ok v
  | None => Raise (AttributeError ("module 'config.core' has no attribute '" ++ name ++ "'"))
  end.

(** The namespace of [config.core] once the module is imported. *)
Definition core_globals : namespace :=
  [ ("__name__", VStr "config.core");
    ("__doc__", VObj "docstring");
    ("__package__", VStr "config");
    ("__loader__", VObj "loader");
    ("__spec__", VObj "spec");
    ("__annotations__", VObj "annotations");
    ("__file__", VObj "file");
    ("__cached__", VObj "cached");
    ("__builtins__", VObj "builtins");
    ("os", VObj "module os");
    ("re", VObj "module re");
    ("warnings", VObj "module warnings");
    ("inspect", VObj "module inspect");
    ("Dict", VObj "typing.Dict");
    ("cfgvars", VObj "module config.cfgvars");
    ("_vars", VDict []);
    ("_initialized", VBool false);
    ("combine_paths", VObj "function combine_paths");
    ("__import_vars_from_file", VObj "function __import_vars_from_file");
    ("__set_base_data_dir", VObj "function __set_base_data_dir");
    ("__auto_set_base_data_dir", VObj "function __auto_set_base_data_dir");
    ("initialise_config", VObj "function initialise_config");
    ("get_config_vars", VObj "function get_config_vars");
    ("__print_vars", VObj "function __print_vars");
    ("print_config_vars", VObj "function print_config_vars");
    ("verify_paths", VObj "function verify_paths");
    ("_warnif_not_initialised", VObj "function _warnif_not_initialised") ].

(* ================================================================== *)
(** ** [config/cfgvars.py] *)

(** The items of [vars(cfgvars)] for the table of the repository; [file]
    is the absolute path of [cfgvars.py], which [CONFIG_FILENAME] holds. *)
Definition cfgvars_vars (file : string) : dict value :=
  [ ("__name__", VStr "config.cfgvars");
    ("__doc__", VObj "docstring");
    ("__package__", VStr "config");
    ("__loader__", VObj "loader");
    ("__spec__", VObj "spec");
    ("__annotations__", VObj "annotations");
    ("__file__", VStr file);
    ("__cached__", VObj "cached");
    ("__builtins__", VObj "builtins");
    ("Callable", VObj "typing.Callable");
    ("Dict", VObj "typing.Dict");
    ("os", VObj "module os");
    ("IDENTIFIER", VStr "PROJECT1");
    ("_REL_DICOM_ROOT_PATH", VStr "this/is/a/path/to/root");
    ("_REL_SPECTRO_TEMPLATE", VStr "ishere/*/*/MRS-data");
    ("_REL_DCM_PATTERN", VStr "this/is/a/path/to/root/{subject}/SCANS/*/DICOM/*.dcm");
    ("NUM_TRS_ONE_FMRI_BLOCK", VInt 418);
    ("FMRI_BLOCK_THRESHOLD", VFloat 4 (-1));
    ("MODALITY_CONDITIONS",
      VDict [ ("T1w", VObj "lambda"); ("T2w", VObj "lambda"); ("fMRI", VObj "lambda");
              ("DWI", VObj "lambda"); ("DTI", VObj "lambda") ]);
    ("DICOMINFO_TSV_NAME", VStr "dicominfo_mod.tsv");
    ("EXCLUDE_SCAN_IDS", VList []);
    ("CONFIG_FILENAME", VStr file) ].

(* ================================================================== *)
(** ** Hosts used in the examples *)

(** A file system given by the list of the paths that exist. *)
Definition host_of (cwd : string) (present : list string) : host :=
  {| getcwd := cwd; path_exists := fun p => PyStr.mem p present |}.

Definition lab_host : host :=
  host_of "/mnt/lab/myproject1/analysis"
          ["/"; "/mnt"; "/mnt/lab"; "/mnt/lab/myproject1"; "/mnt/lab/myproject1/analysis";
           "/mnt/lab/myproject1/config"; "/mnt/lab/myproject1/config/cfgvars.py";
           "/mnt/data"; "/mnt/data/this/is/a/path/to/root"].

Definition cfgvars_here : dict value := cfgvars_vars "/mnt/lab/myproject1/config/cfgvars.py".

(* ================================================================== *)
(** ** Definitions used to state the properties *)

(** The choice of the base directory in [initialise_config]. *)
Definition determine_base_dir (h : host) (base_data_dir keyword : option string)
  : result string :=
  match given base_data_dir, given keyword with
  | Some p, _ => __set_base_data_dir h p
  | None, Some k => __auto_set_base_data_dir h k
  | None, None =>
      Raise (ValueError "Must provide either base_data_dir or keyword to initialise().")
  end.

(** A segment with its separators normalised. *)
Definition clean_segment (seg : string) : string :=
  PyStr.replace "\" os_sep (PyStr.replace "/" os_sep seg).

(** The value of [combine_paths(base_dir, rel_path)]. *)
Definition resolve (base_dir rel_path : string) : string :=
  PosixPath.join_loop (clean_segment base_dir) [clean_segment rel_path].

(** The dictionary [resolved_paths]. *)
Definition resolved_of (base_dir : string) (rel_paths : dict string) : dict value :=
  fold_left (fun acc item => dict_set (fst item) (VStr (resolve base_dir (snd item))) acc)
            rel_paths [].

(** The table that [initialise_config] builds for a base directory. *)
Definition table_of (cfgvars_vars : dict value) (base_dir : string) : dict value :=
  let '(rel_paths, constants) := __import_vars_from_file cfgvars_vars in
  dict_update (dict_update [("BASE_DATA_DIR", VStr base_dir)]
                           (resolved_of base_dir rel_paths))
              constants.

(** The namespace after the table for [base_dir] is published. *)
Definition publish (cfgvars_vars : dict value) (base_dir : string) (g : namespace)
  : namespace :=
  let table := table_of cfgvars_vars base_dir in
  dict_set "_initialized" (VBool true)
           (dict_update (dict_set "_vars" (VDict table) g) table).

(** The published table and the initialised flag of a namespace. *)
Definition published (g : namespace) : option value := dict_get "_vars" g.
Definition initialised (g : namespace) : bool :=
  match dict_get "_initialized" g with
  | Some v => truthy v
  | None => false
  end.



(** A working directory as [os.getcwd] returns it: absolute, with
    components that are neither empty nor ["."] nor [".."]; or the root. *)
Definition proper_component (c : string) : bool :=
  negb (c =? "") && negb (c =? ".") && negb (c =? "..").

Definition normal_cwd (cwd : string) : bool :=
  (cwd =? "/") ||
  match PyStr.split PosixPath.sep_char cwd with
  | first :: c :: cs => (first =? "") && forallb proper_component (c :: cs)
  | _ => false
  end.

(** The directories from the root down to the working directory. *)
Definition ancestors (cwd : string) : list string :=
  let parts := PyStr.split PosixPath.sep_char cwd in
  map (fun n => PyStr.join os_sep (firstn (n + 1) parts)) (seq 1 (List.length parts - 1)).


(** The name of a [_REL_] variable with the prefix removed, which is what
    the docstring of [__import_vars_from_file] announces. *)
Definition remove_REL_prefix (name : string) : string :=
  substring 5 (String.length name - 5) name.

Definition import_vars_documented (cfgvars_vars : dict value)
  : dict string * dict value :=
  fold_left
    (fun acc item =>
       let '(rel_paths, constants) := acc in
       let '(name, val) := item in
       match PyStr.startswith "_REL_" name, val with
       | true, VStr s => (dict_set (remove_REL_prefix name) s rel_paths, constants)
       | _, _ =>
           if negb (PyStr.startswith "_" name)
           then (rel_paths, dict_set name val constants)
           else (rel_paths, constants)
       end)
    cfgvars_vars ([], []).

Definition table_documented (cfgvars_vars : dict value) (base_dir : string) : dict value :=
  let '(rel_paths, constants) := import_vars_documented cfgvars_vars in
  dict_update (dict_update [("BASE_DATA_DIR", VStr base_dir)]
                           (resolved_of base_dir rel_paths))
              constants.

(** [old] occurs in [s]. *)
Fixpoint occurs (old s : string) : bool :=
  String.prefix old s ||
  match s with
  | EmptyString => false
  | String _ r => occurs old r
  end.

(** A name in which [_REL_] occurs at most as the prefix. *)
Definition plain_name (name : string) : bool :=
  negb (occurs "_REL_" (substring 1 (String.length name - 1) name)).




(** Every ["/"] and every backslash replaced by the separator of the host. *)
Fixpoint to_host_separators (s : string) : string :=
  match s with
  | EmptyString => EmptyString
  | String c r =>
      String (if Ascii.eqb c "/" || Ascii.eqb c "\" then PosixPath.sep_char else c)
             (to_host_separators r)
  end.

(** A fragment that starts with neither separator. *)
Definition relative_fragment (frag : string) : bool :=
  negb (PyStr.startswith "/" frag) && negb (PyStr.startswith "\" frag).

(** The namespace after [initialise_config(base_data_dir="/mnt/data/")] on
    the host of the examples. *)
Definition lab_initialised : namespace := publish cfgvars_here "/mnt/data" core_globals.

(** A variable table with a name in which [_REL_] occurs twice. *)
Definition cfgvars_nested : dict value :=
  [ ("IDENTIFIER", VStr "PROJECT1");
    ("_REL_RAW_REL_DIR", VStr "raw/dicom") ].

(** The filter of [verify_paths] on a value. *)
Definition looks_like_path (v : value) : option string :=
  match v with
  | VStr s =>
      if (PyStr.has_char "/" s || PyStr.has_char "\" s) && re_match_path_pattern s
      then Some s else None
  | _ => None
  end.

(* ================================================================== *)
(** ** The inspection helpers of [config/core.py] *)

(** [isinstance(val, allowed_types)] in [get_config_vars]. *)
Definition is_config_type (v : value) : bool :=
  match v with
  | VStr _ | VInt _ | VFloat _ _ | VBool _ | VDict _ | VList _ | VTuple _ => true
  | VNone | VObj _ => false
  end.

Fixpoint insert_member (item : string * value) (l : dict value) : dict value :=
  match l with
  | [] => [item]
  | x :: r =>
      if String.leb (fst item) (fst x) then item :: l else x :: insert_member item r
  end.

(** [inspect.getmembers(module)]: the items of the namespace, sorted by
    name. *)
Definition getmembers (g : namespace) : dict value := fold_right insert_member [] g.

(** [get_config_vars] *)
Definition get_config_vars (g : namespace) : dict value :=
  fold_left
    (fun variables item =>
       let '(name, val) := item in
       if negb (PyStr.startswith "_" name) && is_config_type val
       then dict_set name val variables
       else variables)
    (getmembers g) [].

(** The argument [vars] of [print_config_vars]: [None], a string or a list
    of names. *)
Inductive vars_arg : Type :=
| VarsNone
| VarsStr (s : string)
| VarsList (l : list string).

(** What [__print_vars] prints, line by line.  [Row name val] is the line
    [f"{name:25} = {val}"] and [FromFile v] the line [f"=== from {v}"]: the
    text of a value is not part of the embedding. *)
Inductive printed : Type :=
| Line (text : string)
| FromFile (origin : value)
| Row (name : string) (val : value).

Fixpoint repeat_char (c : ascii) (n : nat) : string :=
  match n with
  | O => ""
  | S k => String c (repeat_char c k)
  end.

Definition newline : string := String (ascii_of_nat 10) "".

(** [__print_vars] *)
Definition __print_vars (variables : dict value) (vars : option (list string))
  (origin_file : option value) (title : string) : list printed :=
  ([Line (newline ++ "=== " ++ title ++ " " ++ repeat_char "=" 60)]
   ++ match origin_file with
      | Some v => if truthy v then [FromFile v; Line (repeat_char "=" 81)] else []
      | None => []
      end
   ++ match vars with
      | Some (var :: rest) =>
          map (fun var => Row var match dict_get var variables with
                                  | Some val => val
                                  | None => VStr "<not found>"
                                  end)
              (var :: rest)
      | _ => map (fun item => Row (fst item) (snd item)) variables
      end
   ++ [Line (repeat_char "=" 81)])%list.

(** [k.lower()] on code points below 256: the letters A to Z and the
    accented capitals. *)
Definition lower_char (c : ascii) : ascii :=
  let n := nat_of_ascii c in
  if between 65 90 n || between 192 214 n || between 216 222 n
  then ascii_of_nat (n + 32) else c.

Fixpoint lower (s : string) : string :=
  match s with
  | EmptyString => EmptyString
  | String c r => String (lower_char c) (lower r)
  end.

Definition gets {A : Type} (f : namespace -> A) : M A := fun g => (Ok (f g), g, []).

(** [print_config_vars]; the lines that [__print_vars] prints are the
    result. *)
Definition print_config_vars (vars : vars_arg) : M (list printed) :=
  _warnif_not_initialised ;;;
  let vars := match vars with
              | VarsStr s => Some [s]
              | VarsList l => Some l
              | VarsNone => None
              end in
  config_vars <- gets get_config_vars ;;
  let config_filename :=
    option_map snd
      (find (fun item => lower (fst item) =? "config_filename") config_vars) in
  variables <- gets get_config_vars ;;
  ret (__print_vars variables vars config_filename "CONFIG VARIABLES").

(* ================================================================== *)
(** ** The modality rules of [config/cfgvars.py] *)

(** [MODALITY_CONDITIONS]: the predicates on a series description;
    [needle in x] is [occurs needle x]. *)
Definition MODALITY_CONDITIONS : list (string * (string -> bool)) :=
  [ ("T1w", fun x => occurs "t1" x && occurs "UNI" x && occurs "0.75" x);
    ("T2w", fun x => occurs "t2" x);
    ("fMRI", fun x => occurs "face" x && occurs "ap" x && negb (occurs "SBRef" x));
    ("DWI", fun x => occurs "resolve_COR" x);
    ("DTI", fun x => occurs "dti" x) ].

(** The modalities whose rule holds of a description. *)
Definition modalities_of (x : string) : list string :=
  map fst (filter (fun rule => snd rule x) MODALITY_CONDITIONS).

(* ================================================================== *)
(** ** The template [config_paths_and_vars.py] *)

Module Template.

Inductive template_exn : Type :=
| RuntimeError (msg : string)
| KeyError (msg : string).

Inductive outcome (A : Type) : Type :=
| Returned (a : A)
| Raised (e : template_exn).
Arguments Returned {A} a.
Arguments Raised {A} e.

Definition __KEYDIR_TO_IDENTIFY_DRIVE : string := "Work".

Definition __REL_DICOM_ROOT_PATH : string := "this/is/a/path/to/root".
Definition __REL_SPECTRO_TEMPLATE : string := "ishere/*/*/MRS-data".
Definition __REL_DCM_PATTERN : string :=
  __REL_DICOM_ROOT_PATH ++ "/{subject}/SCANS/*/DICOM/*.dcm".

(** [s.split(key)[0]] for a non-empty [key]: what stands before the first
    occurrence of [key], the whole of [s] when there is none. *)
Fixpoint before_first (key s : string) : string :=
  match s with
  | EmptyString => EmptyString
  | String c r => if String.prefix key s then EmptyString else String c (before_first key r)
  end.

(** The text of an exception of [combine_paths]. *)
Definition exn_text (e : exn) : string :=
  match e with
  | ValueError msg | TypeError msg | AttributeError msg | NameError msg => msg
  end.

(** The dict comprehension of [initialize_paths]. *)
Fixpoint combine_all (drive : string) (relative_paths acc : dict string)
  : result (dict string) :=
  match relative_paths with
  | [] => Ok acc
  | (name, rel_path) :: rest =>
      match combine_paths [drive; rel_path] with
      | Ok p => combine_all drive rest (dict_set name p acc)
      | Raise e => Raise e
      end
  end.

(** [initialize_paths]; [file] is [__file__].  Whatever is raised inside
    is raised again as a [RuntimeError]. *)
Definition initialize_paths (h : host) (file : string) : outcome (dict string) :=
  let script_path := PosixPath.abspath h file in
  if occurs __KEYDIR_TO_IDENTIFY_DRIVE script_path then
    let drive := before_first __KEYDIR_TO_IDENTIFY_DRIVE script_path in
    let relative_paths :=
      [ ("DICOM_ROOT_PATH", __REL_DICOM_ROOT_PATH);
        ("SPECTRO_TEMPLATE", __REL_SPECTRO_TEMPLATE);
        ("DCM_PATTERN", __REL_DCM_PATTERN) ] in
    match combine_all drive relative_paths [] with
    | Ok paths => Returned (dict_set "DRIVE" drive paths)
    | Raise e => Raised (RuntimeError ("Failed to initialize paths: " ++ exn_text e))
    end
  else
    Raised (RuntimeError
              ("Failed to initialize paths: "
               ++ "Could not retrieve drive. " ++ spaces 12
               ++ "(Given keyword '" ++ __KEYDIR_TO_IDENTIFY_DRIVE
               ++ "' not in'" ++ script_path ++ "')")).

(** The loop of the template's [print_config_vars] over the names asked
    for: the rows printed, and the [KeyError] that ends the loop at the
    first name that is no variable. *)
Fixpoint print_rows (variables : dict value) (vars : list string)
  : list printed * option template_exn :=
  match vars with
  | [] => ([], None)
  | var :: rest =>
      match dict_get var variables with
      | Some v =>
          let '(rows, e) := print_rows variables rest in (Row var v :: rows, e)
      | None =>
          ([], Some (KeyError ("Variable with name '" ++ var
                               ++ "' not  found config variables.")))
      end
  end.

(** The template's [print_config_vars], for [vars] [None] or a list of
    names: the lines printed and the exception, if any.  [file] is the
    absolute path of the module. *)
Definition print_config_vars (file : string) (vars : option (list string))
  (g : namespace) : list printed * option template_exn :=
  let variables := get_config_vars g in
  let header :=
    [ Line (newline ++ "=== CONFIG VARIABLES " ++ repeat_char "=" 60);
      Line ("=== see " ++ file);
      Line (repeat_char "=" 81) ] in
  match vars with
  | Some (var :: rest) =>
      match print_rows variables (var :: rest) with
      | (rows, Some e) => ((header ++ rows)%list, Some e)
      | (rows, None) => ((header ++ rows ++ [Line (repeat_char "=" 81)])%list, None)
      end
  | _ =>
      ((header ++ map (fun item => Row (fst item) (snd item)) variables
               ++ [Line (repeat_char "=" 81)])%list, None)
  end.

End Template.

(** A variable table with a [_REL_] name that resolves to [_vars]. *)
Definition cfgvars_shadowing : dict value :=
  [ ("IDENTIFIER", VStr "PROJECT1");
    ("_REL__vars", VStr "scratch") ].

(** A list of names without repetition, as a test. *)
Fixpoint distinct (l : list string) : bool :=
  match l with
  | [] => true
  | x :: r => negb (PyStr.mem x r) && distinct r
  end.

(** The namespace after [initialise_config(base_data_dir="/mnt/data/")]
    with the table [cfgvars_shadowing]. *)
Definition lab_shadowed : namespace := publish cfgvars_shadowing "/mnt/data" core_globals.

(* ================================================================== *)
(** * Properties *)

(** ** Dictionaries *)

Lemma dict_get_set_same {V : Type} (k : string) (v : V) (d : dict V) :
  dict_get k (dict_set k v d) = Some v.
Proof.
  induction d as [|[k' v'] r IH]; simpl.
  - now rewrite String.eqb_refl.
  - destruct (k' =? k) eqn:E; simpl; rewrite E; auto.
Qed.

Lemma dict_get_set_other {V : Type} (k k0 : string) (v : V) (d : dict V) :
  k0 <> k -> dict_get k (dict_set k0 v d) = dict_get k d.
Proof.
  intros Hne. induction d as [|[k' v'] r IH]; simpl.
  - destruct (k0 =? k) eqn:E; auto. apply String.eqb_eq in E. contradiction.
  - destruct (k' =? k0) eqn:E; simpl.
    + apply String.eqb_eq in E; subst k'.
      destruct (k0 =? k) eqn:E'; auto. apply String.eqb_eq in E'. contradiction.
    + destruct (k' =? k); auto.
Qed.

Lemma dict_set_set_same {V : Type} (k : string) (v v' : V) (d : dict V) :
  dict_set k v (dict_set k v' d) = dict_set k v d.
Proof.
  induction d as [|[k0 v0] r IH]; simpl.
  - now rewrite String.eqb_refl.
  - destruct (k0 =? k) eqn:E; simpl; rewrite E; [reflexivity | now rewrite IH].
Qed.

Lemma dict_get_absent {V : Type} (k : string) (d : dict V) :
  ~ In k (dict_keys d) -> dict_get k d = None.
Proof.
  induction d as [|[k0 v0] r IH]; simpl; intros H; [reflexivity|].
  destruct (String.eqb_spec k0 k) as [->|Hne]; [exfalso; auto | apply IH; auto].
Qed.

(** After [d.update(other)] a key of [other] has the value of [other],
    any other key keeps its value. *)
Lemma dict_get_update {V : Type} (k : string) (other d : dict V) :
  NoDup (dict_keys other) ->
  dict_get k (dict_update d other) =
  match dict_get k other with
  | Some v => Some v
  | None => dict_get k d
  end.
Proof.
  unfold dict_update. revert d.
  induction other as [|[k0 v0] r IH]; intros d Hnd; simpl; [reflexivity|].
  inversion Hnd as [|? ? Hnotin Hnd']; subst.
  rewrite (IH _ Hnd').
  destruct (String.eqb_spec k0 k) as [->|Hne].
  - now rewrite (dict_get_absent k r Hnotin), dict_get_set_same.
  - now rewrite dict_get_set_other.
Qed.

Lemma dict_keys_set {V : Type} (k : string) (v : V) (d : dict V) :
  forall x, In x (dict_keys (dict_set k v d)) <-> x = k \/ In x (dict_keys d).
Proof.
  induction d as [|[k0 v0] r IH]; simpl; intros x.
  - intuition.
  - destruct (String.eqb_spec k0 k) as [->|Hne]; simpl.
    + intuition.
    + rewrite IH. intuition.
Qed.

Lemma dict_set_NoDup {V : Type} (k : string) (v : V) (d : dict V) :
  NoDup (dict_keys d) -> NoDup (dict_keys (dict_set k v d)).
Proof.
  induction d as [|[k0 v0] r IH]; simpl; intros Hnd.
  - constructor; [intros [] | constructor].
  - inversion Hnd as [|? ? Hnotin Hnd']; subst.
    destruct (String.eqb_spec k0 k) as [->|Hne]; simpl.
    + now constructor.
    + constructor; [|auto].
      intros Hin. apply dict_keys_set in Hin as [->|Hin]; contradiction.
Qed.

Lemma dict_update_NoDup {V : Type} (d other : dict V) :
  NoDup (dict_keys d) -> NoDup (dict_keys (dict_update d other)).
Proof.
  unfold dict_update. revert d.
  induction other as [|[k v] r IH]; intros d Hnd; simpl; [assumption|].
  apply IH. now apply dict_set_NoDup.
Qed.

(** ** The two paths of [initialise_config] *)

Lemma combine_paths_pair (base_dir rel_path : string) :
  combine_paths [base_dir; rel_path] = Ok (resolve base_dir rel_path).
Proof. reflexivity. Qed.

Lemma resolve_paths_total (base_dir : string) (rel_paths : dict string) (acc : dict value) :
  resolve_paths base_dir rel_paths acc =
  Ok (fold_left (fun a item => dict_set (fst item) (VStr (resolve base_dir (snd item))) a)
                rel_paths acc).
Proof.
  revert acc. induction rel_paths as [|[name rel_path] rest IH]; intros acc.
  - reflexivity.
  - cbn [resolve_paths]. rewrite combine_paths_pair. apply IH.
Qed.

(** Already initialised and not forced: nothing changes. *)
Lemma initialise_config_noop (h : host) (cfgvars_vars : dict value)
  (base_data_dir keyword : option string) (force verbose : bool)
  (g : namespace) (flag : value) (table : dict value) :
  dict_get "_initialized" g = Some flag ->
  truthy flag && negb force = true ->
  dict_get "_vars" g = Some (VDict table) ->
  initialise_config h cfgvars_vars base_data_dir keyword force verbose g =
  (Ok tt, g,
   if verbose
   then [StdoutAlreadyInitialised
           (match dict_get "BASE_DATA_DIR" table with
            | Some v => v
            | None => VStr "<unknown>"
            end)]
   else []).
Proof.
  intros Hflag Hnoop Hvars.
  unfold initialise_config, bind, read_global. rewrite Hflag, Hnoop.
  destruct verbose; [|reflexivity].
  rewrite Hvars. unfold lift, vars_get, emit.
  destruct (dict_get "BASE_DATA_DIR" table); reflexivity.
Qed.

(** Otherwise the base directory is determined, and either the error of
    that step is raised with the namespace untouched, or the table is
    published. *)
Lemma initialise_config_run (h : host) (cfgvars_vars : dict value)
  (base_data_dir keyword : option string) (force verbose : bool)
  (g : namespace) (flag : value) :
  dict_get "_initialized" g = Some flag ->
  truthy flag && negb force = false ->
  initialise_config h cfgvars_vars base_data_dir keyword force verbose g =
  match determine_base_dir h base_data_dir keyword with
  | Raise e => (Raise e, g, [])
  | Ok base_dir =>
      (Ok tt, publish cfgvars_vars base_dir g,
       if verbose
       then [Stdout ("Configuration initialised with base directory: " ++ base_dir)]
       else [])
  end.
Proof.
  intros Hflag Hrun.
  assert (Hpub : forall r : result string,
    bind (lift r)
      (fun base_dir =>
        let '(rel_paths, constants) := __import_vars_from_file cfgvars_vars in
        resolved_paths <- lift (resolve_paths base_dir rel_paths []) ;;
        assign_global "_vars" (VDict [("BASE_DATA_DIR", VStr base_dir)]) ;;;
        vars_update resolved_paths ;;;
        vars_update constants ;;;
        vars <- read_global "_vars" ;;
        match vars with
        | VDict d => globals_update d
        | _ => raise (TypeError "object is not iterable")
        end ;;;
        assign_global "_initialized" (VBool true) ;;;
        (if verbose
         then emit (Stdout ("Configuration initialised with base directory: " ++ base_dir))
         else ret tt)) g =
    match r with
    | Raise e => (Raise e, g, [])
    | Ok base_dir =>
        (Ok tt, publish cfgvars_vars base_dir g,
         if verbose
         then [Stdout ("Configuration initialised with base directory: " ++ base_dir)]
         else [])
    end).
  { intros [base_dir|e]; [|reflexivity].
    unfold publish, table_of, resolved_of.
    destruct (__import_vars_from_file cfgvars_vars) as [rel_paths constants].
    unfold bind, lift. rewrite resolve_paths_total.
    unfold vars_update, bind, read_global, assign_global, globals_update.
    rewrite dict_get_set_same. cbn beta iota.
    rewrite dict_get_set_same. cbn beta iota.
    rewrite dict_get_set_same. cbn beta iota.
    rewrite !dict_set_set_same.
    destruct verbose; reflexivity. }
  unfold initialise_config.
  unfold bind at 1. unfold read_global at 1. rewrite Hflag. cbn beta iota.
  rewrite Hrun. unfold determine_base_dir.
  destruct (given base_data_dir) as [p|]; [|destruct (given keyword) as [k|]].
  - rewrite Hpub. destruct (__set_base_data_dir h p); reflexivity.
  - rewrite Hpub. destruct (__auto_set_base_data_dir h k); reflexivity.
  - reflexivity.
Qed.

(** ** Splitting and joining *)

Lemma startswith_cons (a b : ascii) (p s : string) :
  PyStr.startswith (String a p) (String b s) = Ascii.eqb a b && PyStr.startswith p s.
Proof.
  unfold PyStr.startswith. cbn [String.prefix].
  destruct (ascii_dec a b) as [->|Hne].
  - now rewrite Ascii.eqb_refl.
  - destruct (Ascii.eqb_spec a b); [contradiction | reflexivity].
Qed.

Lemma startswith_nil (s : string) : PyStr.startswith "" s = true.
Proof. now destruct s. Qed.

Lemma split_nonempty (c : ascii) (s : string) : PyStr.split c s <> [].
Proof.
  destruct s as [|a r]; simpl; [discriminate|].
  destruct (Ascii.eqb a c); [discriminate|].
  destruct (PyStr.split c r); discriminate.
Qed.

Lemma split_sep_free (c : ascii) (s : string) :
  Forall (fun p => PyStr.has_char c p = false) (PyStr.split c s).
Proof.
  induction s as [|a r IH]; simpl.
  - constructor; [reflexivity | constructor].
  - destruct (Ascii.eqb a c) eqn:E.
    + constructor; [reflexivity | assumption].
    + destruct (PyStr.split c r) as [|p t].
      * constructor; [simpl; now rewrite E | constructor].
      * inversion IH; subst. constructor; [simpl; now rewrite E | assumption].
Qed.

Lemma split_app_sep (c : ascii) (p s : string) :
  PyStr.has_char c p = false ->
  PyStr.split c (p ++ String c s) = p :: PyStr.split c s.
Proof.
  induction p as [|a r IH]; simpl; intros H.
  - now rewrite Ascii.eqb_refl.
  - apply orb_false_iff in H as [Ha Hr]. rewrite Ha, (IH Hr). reflexivity.
Qed.

Lemma split_no_sep (c : ascii) (p : string) :
  PyStr.has_char c p = false -> PyStr.split c p = [p].
Proof.
  induction p as [|a r IH]; simpl; intros H; [reflexivity|].
  apply orb_false_iff in H as [Ha Hr]. now rewrite Ha, (IH Hr).
Qed.

Lemma split_join (c : ascii) (l : list string) :
  l <> [] ->
  Forall (fun p => PyStr.has_char c p = false) l ->
  PyStr.split c (PyStr.join (String c "") l) = l.
Proof.
  induction l as [|p rest IH]; intros Hne Hall; [contradiction|].
  inversion Hall as [|? ? Hp Hrest]; subst.
  destruct rest as [|q rest'].
  - simpl. now apply split_no_sep.
  - change (PyStr.join (String c "") (p :: q :: rest'))
      with (p ++ String c (PyStr.join (String c "") (q :: rest'))).
    rewrite split_app_sep by assumption.
    f_equal. apply IH; [discriminate | assumption].
Qed.

Lemma index_lt (x : string) (l : list string) (i : nat) :
  PyStr.index x l = Some i -> i < List.length l.
Proof.
  revert i. induction l as [|p r IH]; simpl; intros i H; [discriminate|].
  destruct (p =? x).
  - injection H as <-. lia.
  - destruct (PyStr.index x r) as [j|]; [|discriminate].
    injection H as <-. specialize (IH j eq_refl). lia.
Qed.

(** [index] gives the first occurrence. *)
Lemma index_first (x : string) (l : list string) (i : nat) :
  PyStr.index x l = Some i ->
  nth i l "" = x /\ forall j, j < i -> nth j l "" <> x.
Proof.
  revert i. induction l as [|p r IH]; simpl; intros i H; [discriminate|].
  destruct (String.eqb_spec p x) as [->|Hne].
  - injection H as <-. split; [reflexivity | intros j Hj; lia].
  - destruct (PyStr.index x r) as [k|]; [|discriminate].
    injection H as <-. destruct (IH k eq_refl) as [Hk Hbefore]. split; [assumption|].
    intros [|j] Hj; [assumption | apply Hbefore; lia].
Qed.



(** ** [normpath] on a path that is already normal *)

Lemma normpath_loop_proper (n : nat) (comps acc : list string) :
  forallb proper_component comps = true ->
  PosixPath.normpath_loop n acc comps = (acc ++ comps)%list.
Proof.
  revert acc. induction comps as [|c rest IH]; intros acc H; simpl.
  - now rewrite app_nil_r.
  - simpl in H. apply andb_true_iff in H as [Hc Hrest].
    unfold proper_component in Hc.
    apply andb_true_iff in Hc as [Hc Hdd]. apply andb_true_iff in Hc as [He Hd].
    apply negb_true_iff in He, Hd, Hdd. rewrite He, Hd, Hdd. simpl.
    rewrite (IH _ Hrest), <- app_assoc. reflexivity.
Qed.

Lemma forallb_firstn {A : Type} (p : A -> bool) (n : nat) (l : list A) :
  forallb p l = true -> forallb p (firstn n l) = true.
Proof.
  revert n. induction l as [|a r IH]; intros [|n] H; simpl in *; auto.
  apply andb_true_iff in H as [Ha Hr]. now rewrite Ha, IH.
Qed.

Lemma Forall_firstn {A : Type} (P : A -> Prop) (n : nat) (l : list A) :
  Forall P l -> Forall P (firstn n l).
Proof.
  intros H. revert n. induction H as [|a r Ha Hr IH]; intros [|n]; simpl; constructor; auto.
Qed.

(** The path rebuilt from a non-empty list of proper components below the
    root is left as it is by [normpath]. *)
Lemma normpath_rooted (c : string) (cs : list string) :
  forallb proper_component (c :: cs) = true ->
  Forall (fun p => PyStr.has_char PosixPath.sep_char p = false) (c :: cs) ->
  PosixPath.normpath (PyStr.join os_sep ("" :: c :: cs)) = PyStr.join os_sep ("" :: c :: cs).
Proof.
  intros Hproper Hfree.
  change (PyStr.join os_sep ("" :: c :: cs))
    with (String "/" (PyStr.join os_sep (c :: cs))).
  assert (Hfirst : exists a r, PyStr.join os_sep (c :: cs) = String a r
                               /\ Ascii.eqb a "/" = false).
  { inversion Hfree as [|? ? Hc _]; subst.
    assert (Hp : proper_component c = true)
      by (simpl in Hproper; now apply andb_true_iff in Hproper as [Hp _]).
    destruct c as [|a r]; [discriminate|].
    simpl in Hc. apply orb_false_iff in Hc as [Ha _].
    exists a. destruct cs; simpl; eauto. }
  destruct Hfirst as (a & r & Hj & Ha).
  remember (String "/" (PyStr.join os_sep (c :: cs))) as path eqn:Hpath.
  assert (H0 : (path =? "") = false) by now subst path.
  assert (H1 : PyStr.startswith PosixPath.sep path = true).
  { subst path. unfold PosixPath.sep. now rewrite startswith_cons, startswith_nil. }
  assert (H2 : PyStr.startswith "//" path = false).
  { subst path. rewrite Hj. change "//" with (String "/" (String "/" "")).
    rewrite !startswith_cons, (Ascii.eqb_sym "/" a), Ha. reflexivity. }
  assert (H3 : PyStr.split PosixPath.sep_char path = "" :: c :: cs).
  { subst path.
    change (PyStr.split PosixPath.sep_char (String "/" (PyStr.join os_sep (c :: cs))))
      with ("" :: PyStr.split "/" (PyStr.join (String "/" "") (c :: cs))).
    rewrite split_join; [reflexivity | discriminate | exact Hfree]. }
  unfold PosixPath.normpath. rewrite H0, H1, H2, H3. cbn [andb].
  change (PosixPath.normpath_loop 1 [] ("" :: c :: cs))
    with (PosixPath.normpath_loop 1 [] (c :: cs)).
  rewrite normpath_loop_proper by assumption.
  subst path. reflexivity.
Qed.

(** ** Auto-detection of the base directory *)

(** In a working directory of the form that [os.getcwd] returns, the path
    rebuilt up to the first occurrence of a non-empty keyword is absolute
    and normal, and it is one of the directories above the working
    directory. *)
Lemma rebuilt_path_normal (h : host) (keyword : string) (idx : nat) :
  keyword <> "" ->
  normal_cwd (getcwd h) = true ->
  PyStr.index keyword (PyStr.split PosixPath.sep_char (getcwd h)) = Some idx ->
  let base := PyStr.join os_sep (firstn (idx + 1) (PyStr.split PosixPath.sep_char (getcwd h))) in
  PosixPath.abspath h base = base /\ In base (ancestors (getcwd h)).
Proof.
  intros Hkw Hnormal Hidx base.
  assert (Hfree := split_sep_free PosixPath.sep_char (getcwd h)).
  assert (Hlt := index_lt _ _ _ Hidx).
  unfold normal_cwd in Hnormal. apply orb_true_iff in Hnormal as [Hroot|Hnormal].
  { apply String.eqb_eq in Hroot. rewrite Hroot in Hidx.
    change (PyStr.split PosixPath.sep_char "/") with [""; ""] in Hidx.
    cbn [PyStr.index] in Hidx.
    destruct (String.eqb_spec "" keyword) as [E|_]; [now symmetry in E | discriminate]. }
  split.
  - subst base.
    destruct (PyStr.split PosixPath.sep_char (getcwd h)) as [|first [|c cs]];
      try discriminate.
    apply andb_true_iff in Hnormal as [Hfirst Hproper].
    apply String.eqb_eq in Hfirst; subst first.
    cbn [PyStr.index] in Hidx. destruct (String.eqb_spec "" keyword) as [E|_]; [now symmetry in E|].
    destruct (if c =? keyword then Some 0 else option_map S (PyStr.index keyword cs))
      as [i|] eqn:Hi; [|discriminate].
    injection Hidx as <-.
    replace (S i + 1) with (S (S i)) by lia.
    change (firstn (S (S i)) ("" :: c :: cs)) with ("" :: c :: firstn i cs).
    assert (Hp : forallb proper_component (c :: firstn i cs) = true).
    { simpl in Hproper |- *. apply andb_true_iff in Hproper as [Hc Hcs].
      now rewrite Hc, forallb_firstn. }
    assert (Hf : Forall (fun p => PyStr.has_char PosixPath.sep_char p = false)
                        (c :: firstn i cs)).
    { inversion Hfree as [|? ? _ Hrest]; subst.
      inversion Hrest as [|? ? Hc Hcs]; subst.
      constructor; [assumption | now apply Forall_firstn]. }
    unfold PosixPath.abspath.
    assert (Habs : PosixPath.isabs (PyStr.join os_sep ("" :: c :: firstn i cs)) = true).
    { change (PyStr.join os_sep ("" :: c :: firstn i cs))
        with (String "/" (PyStr.join os_sep (c :: firstn i cs))).
      unfold PosixPath.isabs, PosixPath.sep.
      now rewrite startswith_cons, startswith_nil. }
    rewrite Habs. now apply normpath_rooted.
  - subst base. unfold ancestors. apply in_map_iff. exists idx. split; [reflexivity|].
    apply in_seq.
    destruct (PyStr.split PosixPath.sep_char (getcwd h)) as [|first [|c cs]];
      try discriminate.
    apply andb_true_iff in Hnormal as [Hfirst _].
    apply String.eqb_eq in Hfirst; subst first.
    cbn [PyStr.index] in Hidx. destruct (String.eqb_spec "" keyword) as [E|_]; [now symmetry in E|].
    destruct (if c =? keyword then Some 0 else option_map S (PyStr.index keyword cs));
      [|discriminate].
    injection Hidx as <-. simpl in Hlt |- *. lia.
Qed.

(* ================================================================== *)
(** * The properties of the specification *)

(** ** Idempotence *)

(** In a namespace that is initialised and in which [_vars] is bound to a
    table, [initialise_config] with [force=False] returns without an
    exception, whatever its other arguments are, and the namespace, hence
    the published table and the flag, is exactly what it was. *)
Theorem initialise_config_idempotent (h : host) (cfgvars_vars : dict value)
  (base_data_dir keyword : option string) (verbose : bool)
  (g : namespace) (flag : value) (table : dict value) :
  dict_get "_initialized" g = Some flag ->
  truthy flag = true ->
  dict_get "_vars" g = Some (VDict table) ->
  exists out,
    initialise_config h cfgvars_vars base_data_dir keyword false verbose g = (Ok tt, g, out)
    /\ published g = Some (VDict table) /\ initialised g = true.
Proof.
  intros Hflag Htrue Hvars. eexists. split; [|split].
  - apply (initialise_config_noop _ _ _ _ _ _ _ flag table); auto.
    now rewrite Htrue.
  - exact Hvars.
  - unfold initialised. now rewrite Hflag.
Qed.

(** ** Precedence of the explicit base directory *)

(** C10. With a non-empty [base_data_dir] the keyword is not consulted:
    the call behaves, for every keyword, as the call with [base_data_dir]
    alone. *)
Theorem explicit_base_dir_takes_precedence (h : host) (cfgvars_vars : dict value)
  (base_data_dir : string) (keyword : option string) (force verbose : bool)
  (g : namespace) :
  base_data_dir <> "" ->
  initialise_config h cfgvars_vars (Some base_data_dir) keyword force verbose g =
  initialise_config h cfgvars_vars (Some base_data_dir) None force verbose g.
Proof.
  intros Hne. unfold initialise_config.
  assert (Hgiven : given (Some base_data_dir) = Some base_data_dir).
  { unfold given. destruct (String.eqb_spec base_data_dir ""); [contradiction | reflexivity]. }
  rewrite Hgiven. reflexivity.
Qed.

Lemma explicit_base_dir_takes_precedence_witness :
  initialise_config lab_host cfgvars_here (Some "/mnt/data/") (Some "nowhere") false true
    core_globals =
  initialise_config lab_host cfgvars_here (Some "/mnt/data/") None false true core_globals.
Proof.
  apply (explicit_base_dir_takes_precedence lab_host cfgvars_here "/mnt/data/"
           (Some "nowhere") false true core_globals).
  discriminate.
Defined.

(** ** Auto-detection by keyword *)






(** ** The failures of [initialise_config] *)




(** ** A base directory that does not exist *)


(** ** Separators *)

Lemma replace_char_cons (c d a : ascii) (r : string) :
  PyStr.replace (String c "") (String d "") (String a r) =
  String (if Ascii.eqb a c then d else a) (PyStr.replace (String c "") (String d "") r).
Proof.
  unfold PyStr.replace. cbn [PyStr.replace_from].
  change (String.prefix (String c "") (String a r))
    with (PyStr.startswith (String c "") (String a r)).
  rewrite startswith_cons, startswith_nil, andb_true_r, Ascii.eqb_sym.
  destruct (Ascii.eqb a c); reflexivity.
Qed.

Lemma clean_segment_chars (seg : string) : clean_segment seg = to_host_separators seg.
Proof.
  unfold clean_segment, os_sep, PosixPath.sep.
  induction seg as [|a r IH]; [reflexivity|].
  rewrite !replace_char_cons, IH. cbn [to_host_separators]. f_equal.
  unfold PosixPath.sep_char.
  destruct (Ascii.eqb a "/") eqn:E1; [reflexivity|].
  now destruct (Ascii.eqb a "\").
Qed.

Lemma has_char_append (c : ascii) (s t : string) :
  PyStr.has_char c (s ++ t) = PyStr.has_char c s || PyStr.has_char c t.
Proof.
  induction s as [|a r IH]; simpl; [reflexivity|]. now rewrite IH, orb_assoc.
Qed.

Lemma to_host_separators_no_backslash (s : string) :
  PyStr.has_char "\" (to_host_separators s) = false.
Proof.
  induction s as [|a r IH]; [reflexivity|].
  cbn [to_host_separators PyStr.has_char]. rewrite IH, orb_false_r.
  destruct (Ascii.eqb a "/") eqn:E1; [reflexivity|].
  destruct (Ascii.eqb a "\") eqn:E2; [reflexivity | exact E2].
Qed.

Lemma join_loop_no_backslash (path : string) (p : list string) :
  PyStr.has_char "\" path = false ->
  Forall (fun b => PyStr.has_char "\" b = false) p ->
  PyStr.has_char "\" (PosixPath.join_loop path p) = false.
Proof.
  intros Hpath Hp. revert path Hpath.
  induction Hp as [|b rest Hb Hrest IH]; intros path Hpath; [exact Hpath|].
  cbn [PosixPath.join_loop]. apply IH.
  destruct (PyStr.startswith PosixPath.sep b); [exact Hb|].
  destruct ((path =? "") || PyStr.endswith PosixPath.sep path);
    rewrite !has_char_append, Hpath, Hb; reflexivity.
Qed.

(** C7. [combine_paths] replaces every ["/"] and every backslash of every
    segment by the separator of the host and joins the results with the
    join of the host; it fails on no segments at all only, and the path it
    returns holds no backslash, so that a fragment that mixes the two
    separators resolves to a path with the separator of the host alone. *)
Theorem combine_paths_host_separators (segments : list string) :
  combine_paths segments = PosixPath.join (map to_host_separators segments)
  /\ match combine_paths segments with
     | Ok path => PyStr.has_char "\" path = false
     | Raise _ => segments = []
     end
  /\ forall base_dir fragment : string,
       combine_paths [base_dir; fragment] = Ok (resolve base_dir fragment)
       /\ PyStr.has_char "\" (resolve base_dir fragment) = false.
Proof.
  assert (Heq : combine_paths segments = PosixPath.join (map to_host_separators segments)).
  { unfold combine_paths. f_equal. apply map_ext. exact clean_segment_chars. }
  assert (Hall : forall l, Forall (fun b => PyStr.has_char "\" b = false)
                                  (map to_host_separators l)).
  { intros l. apply Forall_forall. intros b Hb. apply in_map_iff in Hb as (s & <- & _).
    apply to_host_separators_no_backslash. }
  split; [exact Heq|]. split.
  - rewrite Heq. destruct segments as [|a p]; [reflexivity|].
    cbn [map PosixPath.join]. apply join_loop_no_backslash.
    + apply to_host_separators_no_backslash.
    + apply Hall.
  - intros base_dir fragment. split; [reflexivity|].
    unfold resolve. rewrite !clean_segment_chars. apply join_loop_no_backslash.
    + apply to_host_separators_no_backslash.
    + apply (Hall [fragment]).
Qed.

(** ** Resolved paths and the base directory *)

Lemma startswith_append (p s : string) : PyStr.startswith p (p ++ s) = true.
Proof.
  induction p as [|a r IH]; cbn [append]; [apply startswith_nil|].
  now rewrite startswith_cons, Ascii.eqb_refl, IH.
Qed.

Lemma startswith_append_l (p s t : string) :
  PyStr.startswith p s = true -> PyStr.startswith p (s ++ t) = true.
Proof.
  revert s. induction p as [|a r IH]; intros s H; [apply startswith_nil|].
  destruct s as [|b s']; [discriminate|].
  cbn [append]. rewrite startswith_cons in H |- *.
  apply andb_true_iff in H as [Hab Hr]. now rewrite Hab, IH.
Qed.

Lemma to_host_separators_id (s : string) :
  PyStr.has_char "\" s = false -> to_host_separators s = s.
Proof.
  induction s as [|a r IH]; [reflexivity|]. simpl. intros H.
  apply orb_false_iff in H as [Ha Hr]. rewrite (IH Hr), Ha, orb_false_r.
  destruct (Ascii.eqb_spec a "/") as [->|_]; reflexivity.
Qed.

Lemma to_host_separators_relative (frag : string) :
  relative_fragment frag = true ->
  PyStr.startswith PosixPath.sep (to_host_separators frag) = false.
Proof.
  unfold relative_fragment, PosixPath.sep. destruct frag as [|a r]; [reflexivity|].
  cbn [to_host_separators]. rewrite !startswith_cons, !startswith_nil, !andb_true_r.
  rewrite (Ascii.eqb_sym "/" a), (Ascii.eqb_sym "\" a).
  destruct (Ascii.eqb a "/") eqn:E1; [discriminate|].
  destruct (Ascii.eqb a "\") eqn:E2; [discriminate|].
  intros _. cbn [orb]. now rewrite Ascii.eqb_sym.
Qed.

(** A relative fragment is appended to the base directory. *)
Lemma resolve_relative (base_dir frag : string) :
  PyStr.has_char "\" base_dir = false ->
  relative_fragment frag = true ->
  resolve base_dir frag =
  if (base_dir =? "") || PyStr.endswith PosixPath.sep base_dir
  then base_dir ++ to_host_separators frag
  else base_dir ++ PosixPath.sep ++ to_host_separators frag.
Proof.
  intros Hbase Hfrag. unfold resolve. rewrite !clean_segment_chars.
  rewrite (to_host_separators_id base_dir Hbase).
  cbn [PosixPath.join_loop]. now rewrite (to_host_separators_relative frag Hfrag).
Qed.

Lemma normpath_isabs (path : string) :
  PosixPath.isabs path = true -> PosixPath.isabs (PosixPath.normpath path) = true.
Proof.
  unfold PosixPath.isabs. intros Habs. unfold PosixPath.normpath.
  destruct path as [|a r]; [discriminate|].
  change (String a r =? "") with false. cbn iota. rewrite Habs.
  destruct (PyStr.startswith "//" (String a r) && negb (PyStr.startswith "///" (String a r)));
    unfold PosixPath.repeat_sep, PosixPath.sep; cbn [append String.eqb];
    now rewrite startswith_cons, startswith_nil.
Qed.

Lemma abspath_isabs (h : host) (path : string) :
  PosixPath.isabs (getcwd h) = true -> PosixPath.isabs (PosixPath.abspath h path) = true.
Proof.
  intros Hcwd. unfold PosixPath.abspath.
  destruct (PosixPath.isabs path) eqn:Habs; [now apply normpath_isabs|].
  apply normpath_isabs. cbn [PosixPath.join_loop].
  unfold PosixPath.isabs in Habs. rewrite Habs.
  destruct ((getcwd h =? "") || PyStr.endswith PosixPath.sep (getcwd h));
    now apply startswith_append_l.
Qed.

Lemma determine_base_dir_abspath (h : host) (base_data_dir keyword : option string)
  (base_dir : string) :
  determine_base_dir h base_data_dir keyword = Ok base_dir ->
  exists path, base_dir = PosixPath.abspath h path /\ path_exists h base_dir = true.
Proof.
  assert (Hset : forall p, __set_base_data_dir h p = Ok base_dir ->
            exists path, base_dir = PosixPath.abspath h path /\ path_exists h base_dir = true).
  { intros p. unfold __set_base_data_dir.
    destruct (path_exists h (PosixPath.abspath h p)) eqn:E; cbn [negb]; [|discriminate].
    intros H. injection H as <-. eauto. }
  unfold determine_base_dir.
  destruct (given base_data_dir) as [p|]; [apply Hset|].
  destruct (given keyword) as [k|]; [|discriminate].
  unfold __auto_set_base_data_dir.
  destruct (negb (PyStr.mem k (PyStr.split PosixPath.sep_char (getcwd h)))); [discriminate|].
  destruct (PyStr.index k (PyStr.split PosixPath.sep_char (getcwd h))); [apply Hset | discriminate].
Qed.

Lemma resolved_of_entries (base_dir : string) (rel_paths : dict string) (acc : dict value)
  (name : string) (v : value) :
  dict_get name
    (fold_left (fun a item => dict_set (fst item) (VStr (resolve base_dir (snd item))) a)
               rel_paths acc) = Some v ->
  dict_get name acc = Some v
  \/ exists frag, In (name, frag) rel_paths /\ v = VStr (resolve base_dir frag).
Proof.
  revert acc. induction rel_paths as [|[k frag] rest IH]; intros acc H; [now left|].
  cbn [fold_left fst snd] in H. destruct (IH _ H) as [Hacc|(f & Hin & Hv)].
  - destruct (String.eqb_spec k name) as [->|Hne].
    + rewrite dict_get_set_same in Hacc. injection Hacc as <-.
      right. exists frag. split; [now left | reflexivity].
    + rewrite dict_get_set_other in Hacc by assumption. now left.
  - right. exists f. split; [now right | assumption].
Qed.

(** C4, as stated, fails: a fragment that is absolute (or that starts with
    a backslash, which becomes the separator) replaces the base directory
    in [os.path.join], and a backslash in the base directory itself is
    rewritten. *)
Lemma absolute_fragment_leaves_base :
  combine_paths ["/mnt/data"; "/etc/passwd"] = Ok "/etc/passwd"
  /\ PyStr.startswith "/mnt/data" "/etc/passwd" = false
  /\ combine_paths ["/mnt/data"; "\scratch\run"] = Ok "/scratch/run"
  /\ PyStr.startswith "/mnt/data" "/scratch/run" = false
  /\ combine_paths ["/mnt/lab\share"; "raw"] = Ok "/mnt/lab/share/raw"
  /\ PyStr.startswith "/mnt/lab\share" "/mnt/lab/share/raw" = false
  /\ ~ (forall base_dir fragment path,
          PosixPath.isabs base_dir = true ->
          combine_paths [base_dir; fragment] = Ok path ->
          PosixPath.isabs path = true /\ PyStr.startswith base_dir path = true).
Proof.
  repeat (split; [reflexivity|]).
  intros H. destruct (H "/mnt/data" "/etc/passwd" "/etc/passwd" eq_refl eq_refl) as [_ Hp].
  discriminate.
Qed.

(** ** The published table *)

Lemma table_of_NoDup (cfgvars_vars : dict value) (base_dir : string) :
  NoDup (dict_keys (table_of cfgvars_vars base_dir)).
Proof.
  unfold table_of. destruct (__import_vars_from_file cfgvars_vars) as [rel_paths constants].
  do 2 apply dict_update_NoDup.
  constructor; [intros [] | constructor].
Qed.

(** What [_vars] is bound to after the table is published: the table,
    unless the table itself has an entry named [_vars]. *)
Lemma published_after_publish (cfgvars_vars : dict value) (base_dir : string)
  (g : namespace) :
  published (publish cfgvars_vars base_dir g) =
  match dict_get "_vars" (table_of cfgvars_vars base_dir) with
  | Some v => Some v
  | None => Some (VDict (table_of cfgvars_vars base_dir))
  end.
Proof.
  unfold published, publish.
  rewrite dict_get_set_other by discriminate.
  rewrite dict_get_update by apply table_of_NoDup.
  now rewrite dict_get_set_same.
Qed.

Lemma initialised_after_publish (cfgvars_vars : dict value) (base_dir : string)
  (g : namespace) :
  initialised (publish cfgvars_vars base_dir g) = true.
Proof. unfold initialised, publish. now rewrite dict_get_set_same. Qed.

Lemma occurs_none_replace (old new s : string) :
  occurs old s = false -> PyStr.replace_from 0 old new s = s.
Proof.
  induction s as [|a r IH]; [reflexivity|].
  cbn [occurs PyStr.replace_from]. intros H.
  apply orb_false_iff in H as [Hp Hr]. now rewrite Hp, (IH Hr).
Qed.

Lemma startswith_split (p s : string) :
  PyStr.startswith p s = true -> exists rest, s = p ++ rest.
Proof.
  revert s. induction p as [|a r IH]; intros s H; [now exists s|].
  destruct s as [|b s']; [discriminate|].
  rewrite startswith_cons in H. apply andb_true_iff in H as [Hab Hr].
  apply Ascii.eqb_eq in Hab; subst b. destruct (IH _ Hr) as [rest ->]. now exists rest.
Qed.

Lemma substring_all (s : string) : substring 0 (String.length s) s = s.
Proof. induction s as [|a r IH]; [reflexivity|]. simpl. now rewrite IH. Qed.

(** For a name in which [_REL_] occurs as the prefix only, replacing
    [_REL_] by nothing removes the prefix. *)
Lemma replace_REL_plain (name : string) :
  PyStr.startswith "_REL_" name = true ->
  plain_name name = true ->
  PyStr.replace "_REL_" "" name = remove_REL_prefix name.
Proof.
  intros Hstart Hplain. destruct (startswith_split _ _ Hstart) as [rest ->].
  unfold plain_name in Hplain. apply negb_true_iff in Hplain.
  unfold remove_REL_prefix.
  replace (String.length ("_REL_" ++ rest) - 5) with (String.length rest)
    by (cbn [append String.length]; lia).
  change (substring 5 (String.length rest) ("_REL_" ++ rest))
    with (substring 0 (String.length rest) rest).
  rewrite substring_all.
  replace (String.length ("_REL_" ++ rest) - 1) with (String.length ("REL_" ++ rest))
    in Hplain by (cbn [append String.length]; lia).
  change (substring 1 (String.length ("REL_" ++ rest)) ("_REL_" ++ rest))
    with (substring 0 (String.length ("REL_" ++ rest)) ("REL_" ++ rest)) in Hplain.
  rewrite substring_all in Hplain.
  assert (Hrest : occurs "_REL_" rest = false).
  { cbn [occurs append] in Hplain.
    repeat (apply orb_false_iff in Hplain as [_ Hplain]). exact Hplain. }
  unfold PyStr.replace.
  change ("_REL_" ++ rest) with (String "_" ("REL_" ++ rest)).
  cbn [PyStr.replace_from].
  change (String.prefix "_REL_" (String "_" ("REL_" ++ rest)))
    with (PyStr.startswith "_REL_" ("_REL_" ++ rest)).
  rewrite startswith_append.
  change (PyStr.replace_from (String.length "_REL_" - 1) "_REL_" "" ("REL_" ++ rest))
    with (PyStr.replace_from 0 "_REL_" "" rest).
  now rewrite occurs_none_replace.
Qed.

Lemma fold_left_ext_in {A B : Type} (f f' : A -> B -> A) (l : list B) (a : A) :
  (forall x b, In b l -> f x b = f' x b) -> fold_left f l a = fold_left f' l a.
Proof.
  revert a. induction l as [|b r IH]; intros a H; [reflexivity|].
  cbn [fold_left]. rewrite (H a b (or_introl eq_refl)). apply IH.
  intros x b' Hin. apply H. now right.
Qed.

(** On a table whose [_REL_] names are plain the loader does what its
    docstring announces. *)
Lemma import_vars_as_documented (cfgvars_vars : dict value) :
  (forall name v, In (name, v) cfgvars_vars ->
                  PyStr.startswith "_REL_" name = true -> plain_name name = true) ->
  __import_vars_from_file cfgvars_vars = import_vars_documented cfgvars_vars.
Proof.
  intros Hplain. unfold __import_vars_from_file, import_vars_documented.
  apply fold_left_ext_in. intros [rel_paths constants] [name val] Hin.
  destruct (PyStr.startswith "_REL_" name) eqn:Hstart; [|reflexivity].
  destruct val; try reflexivity.
  now rewrite (replace_REL_plain name Hstart (Hplain _ _ Hin Hstart)).
Qed.

(** A successful initialisation publishes the documented table, when the
    [_REL_] names are plain and no entry is named [_vars]. *)
Lemma initialise_config_publishes_documented (h : host) (cfgvars_vars : dict value)
  (base_data_dir keyword : option string) (force verbose : bool)
  (g : namespace) (flag : value) (base_dir : string) :
  dict_get "_initialized" g = Some flag ->
  truthy flag && negb force = false ->
  determine_base_dir h base_data_dir keyword = Ok base_dir ->
  (forall name v, In (name, v) cfgvars_vars ->
                  PyStr.startswith "_REL_" name = true -> plain_name name = true) ->
  dict_get "_vars" (table_of cfgvars_vars base_dir) = None ->
  exists g' out,
    initialise_config h cfgvars_vars base_data_dir keyword force verbose g = (Ok tt, g', out)
    /\ published g' = Some (VDict (table_documented cfgvars_vars base_dir))
    /\ initialised g' = true.
Proof.
  intros Hflag Hrun Hdet Hplain Hno.
  rewrite (initialise_config_run _ _ _ _ _ _ _ flag Hflag Hrun), Hdet.
  do 2 eexists. split; [reflexivity|]. split; [|apply initialised_after_publish].
  rewrite published_after_publish, Hno.
  unfold table_of, table_documented. now rewrite (import_vars_as_documented _ Hplain).
Qed.

(** C1 (defect in the code). The table of the repository is published as
    documented, but a [_REL_] name in which [_REL_] occurs again loses
    every occurrence, not the prefix alone: [_REL_RAW_REL_DIR] is
    published as [RAWDIR], and [RAW_REL_DIR] is not bound. *)
Theorem published_name_loses_every_REL :
  initialise_config lab_host cfgvars_nested (Some "/mnt/data/") None false true core_globals
  = (Ok tt, publish cfgvars_nested "/mnt/data" core_globals,
     [Stdout "Configuration initialised with base directory: /mnt/data"])
  /\ published (publish cfgvars_nested "/mnt/data" core_globals)
     = Some (VDict [ ("BASE_DATA_DIR", VStr "/mnt/data");
                     ("RAWDIR", VStr "/mnt/data/raw/dicom");
                     ("IDENTIFIER", VStr "PROJECT1") ])
  /\ table_documented cfgvars_nested "/mnt/data"
     = [ ("BASE_DATA_DIR", VStr "/mnt/data");
         ("RAW_REL_DIR", VStr "/mnt/data/raw/dicom");
         ("IDENTIFIER", VStr "PROJECT1") ]
  /\ published (publish cfgvars_here "/mnt/data" core_globals)
     = Some (VDict (table_documented cfgvars_here "/mnt/data")).
Proof. repeat split. Qed.

(** ** Verification of the paths *)

Lemma dict_get_app {V : Type} (k : string) (l l' : dict V) :
  dict_get k (l ++ l')%list =
  match dict_get k l with
  | Some v => Some v
  | None => dict_get k l'
  end.
Proof.
  induction l as [|[k0 v0] r IH]; [reflexivity|].
  cbn [app dict_get]. now destruct (k0 =? k).
Qed.

Lemma verify_paths_pths_step (h : host) (vars : dict value) (name : string) (v : value) :
  verify_paths_pths h (vars ++ [(name, v)])%list =
  match looks_like_path v with
  | Some s => dict_set name (path_exists h s) (verify_paths_pths h vars)
  | None => verify_paths_pths h vars
  end.
Proof.
  unfold verify_paths_pths. rewrite fold_left_app. cbn [fold_left].
  unfold looks_like_path. destruct v; try reflexivity.
  destruct (PyStr.has_char "/" s || PyStr.has_char "\" s); [|reflexivity].
  now destruct (re_match_path_pattern s).
Qed.

(** The dictionary that [verify_paths] builds and prints has an entry for
    exactly the names bound to a string that holds a separator and matches
    the pattern, with the existence of that path. *)
Lemma verify_paths_pths_spec (h : host) (vars : dict value) (name : string) :
  NoDup (dict_keys vars) ->
  dict_get name (verify_paths_pths h vars) =
  match dict_get name vars with
  | Some v => option_map (path_exists h) (looks_like_path v)
  | None => None
  end.
Proof.
  induction vars as [|[k v] r IH] using rev_ind; intros Hnd; [reflexivity|].
  unfold dict_keys in Hnd. rewrite map_app in Hnd. cbn [map fst] in Hnd.
  apply NoDup_remove in Hnd as [Hnd Hnotin]. rewrite app_nil_r in Hnd, Hnotin.
  rewrite verify_paths_pths_step, dict_get_app. cbn [dict_get].
  destruct (String.eqb_spec k name) as [->|Hne].
  - rewrite (dict_get_absent name r Hnotin).
    destruct (looks_like_path v) as [s|]; cbn [option_map].
    + apply dict_get_set_same.
    + rewrite (IH Hnd), (dict_get_absent name r Hnotin). reflexivity.
  - destruct (looks_like_path v) as [s|].
    + rewrite dict_get_set_other by assumption. rewrite (IH Hnd).
      now destruct (dict_get name r).
    + rewrite (IH Hnd). now destruct (dict_get name r).
Qed.

(** C8 (defect in the code). [verify_paths] builds the mapping that the
    claim describes, a glob pattern being left out and a plain path
    reported, and prints it; but its body has no [return], so the call
    evaluates to [None] and never to the mapping. *)
Theorem verify_paths_returns_none :
  (forall (h : host) (g : namespace),
     match verify_paths h g with
     | (Ok r, _, _) => r = None
     | (Raise _, _, _) => True
     end)
  /\ verify_paths lab_host lab_initialised
     = (Ok None, lab_initialised,
        [ Stdout "";
          Stdout (ljust 40 "BASE_DATA_DIR" ++ ": path exists.");
          Stdout (ljust 40 "DICOM_ROOT_PATH" ++ ": path exists.");
          Stdout (ljust 40 "CONFIG_FILENAME" ++ ": path exists.") ])
  /\ (forall h : host,
        verify_paths_pths h [ ("SPECTRO", VStr "/data/*/MRS-data");
                              ("SUBJECT", VStr "/data/subj01/MRS-data") ]
        = [ ("SUBJECT", path_exists h "/data/subj01/MRS-data") ]).
Proof.
  split; [|split; [reflexivity | intros h; reflexivity]].
  intros h g. unfold verify_paths, bind.
  destruct (_warnif_not_initialised g) as [[[[]|e] g1] out1]; [|exact I].
  destruct (read_global "_vars" g1) as [[[vars|e] g2] out2]; [|exact I].
  destruct vars; try exact I.
  cbn [ret raise].
  match goal with
  | |- context [match ?m g2 with _ => _ end] => destruct (m g2) as [[[[]|e] g3] out3]
  end; [reflexivity | exact I].
Qed.

(** ** Access by name *)




(** ** Checks of the embedding on concrete inputs *)

Example startswith_rel : PyStr.startswith "_REL_" "_REL_DCM_PATTERN" = true.
Proof. reflexivity. Qed.

Example replace_rel : PyStr.replace "_REL_" "" "_REL_DCM_PATTERN" = "DCM_PATTERN".
Proof. reflexivity. Qed.

Example replace_every_occurrence : PyStr.replace "_REL_" "" "_REL_A_REL_B" = "AB".
Proof. reflexivity. Qed.

Example split_cwd :
  PyStr.split "/" "/mnt/lab/myproject1/analysis"
  = [""; "mnt"; "lab"; "myproject1"; "analysis"].
Proof. reflexivity. Qed.

Example normpath_dots : PosixPath.normpath "/a/./b/../c//d/" = "/a/c/d".
Proof. reflexivity. Qed.

Example normpath_relative : PosixPath.normpath "../x/.." = "..".
Proof. reflexivity. Qed.

Example normpath_two_slashes : PosixPath.normpath "//a" = "//a".
Proof. reflexivity. Qed.

Example normpath_three_slashes : PosixPath.normpath "///a" = "/a".
Proof. reflexivity. Qed.

Example abspath_trailing_separator : PosixPath.abspath lab_host "/mnt/data/" = "/mnt/data".
Proof. reflexivity. Qed.

Example abspath_of_relative :
  PosixPath.abspath lab_host "../config" = "/mnt/lab/myproject1/config".
Proof. reflexivity. Qed.

Example resolve_mixed_separators :
  combine_paths ["/mnt/data"; "raw\subj01/scans"] = Ok "/mnt/data/raw/subj01/scans".
Proof. reflexivity. Qed.

Example combine_paths_no_segment :
  combine_paths [] = Raise (TypeError "join() missing 1 required positional argument: 'a'").
Proof. reflexivity. Qed.

Example import_vars_of_repository :
  __import_vars_from_file cfgvars_here
  = ([ ("DICOM_ROOT_PATH", "this/is/a/path/to/root");
       ("SPECTRO_TEMPLATE", "ishere/*/*/MRS-data");
       ("DCM_PATTERN", "this/is/a/path/to/root/{subject}/SCANS/*/DICOM/*.dcm") ],
     [ ("Callable", VObj "typing.Callable");
       ("Dict", VObj "typing.Dict");
       ("os", VObj "module os");
       ("IDENTIFIER", VStr "PROJECT1");
       ("NUM_TRS_ONE_FMRI_BLOCK", VInt 418);
       ("FMRI_BLOCK_THRESHOLD", VFloat 4 (-1));
       ("MODALITY_CONDITIONS",
         VDict [ ("T1w", VObj "lambda"); ("T2w", VObj "lambda"); ("fMRI", VObj "lambda");
                 ("DWI", VObj "lambda"); ("DTI", VObj "lambda") ]);
       ("DICOMINFO_TSV_NAME", VStr "dicominfo_mod.tsv");
       ("EXCLUDE_SCAN_IDS", VList []);
       ("CONFIG_FILENAME", VStr "/mnt/lab/myproject1/config/cfgvars.py") ]).
Proof. reflexivity. Qed.

Example glob_is_no_path : re_match_path_pattern "/data/*/MRS-data" = false.
Proof. reflexivity. Qed.

Example plain_path_matches : re_match_path_pattern "/data/subj01/MRS-data" = true.
Proof. reflexivity. Qed.

Example neither_argument :
  initialise_config lab_host cfgvars_here None None false true core_globals
  = (Raise (ValueError "Must provide either base_data_dir or keyword to initialise()."),
     core_globals, []).
Proof. reflexivity. Qed.

Example empty_arguments_count_as_missing :
  initialise_config lab_host cfgvars_here (Some "") (Some "") false true core_globals
  = (Raise (ValueError "Must provide either base_data_dir or keyword to initialise()."),
     core_globals, []).
Proof. reflexivity. Qed.

(* ================================================================== *)
(** * Further properties of [config/core.py] *)

(** ** Failure and repetition of [initialise_config] *)





(** X3. When a [_REL_] variable resolves to the name [_vars], publishing
    the table rebinds the global [_vars] to the resolved path, a string;
    the next call without [force] and with [verbose] then raises an
    [AttributeError] where it should have returned. *)
Theorem shadowed_vars_breaks_second_call (h : host) (cfgvars_vars : dict value)
  (base_dir path : string) (g : namespace)
  (base_data_dir keyword : option string) :
  dict_get "_vars" (table_of cfgvars_vars base_dir) = Some (VStr path) ->
  published (publish cfgvars_vars base_dir g) = Some (VStr path)
  /\ exists msg,
       initialise_config h cfgvars_vars base_data_dir keyword false true
         (publish cfgvars_vars base_dir g)
       = (Raise (AttributeError msg), publish cfgvars_vars base_dir g, []).
Proof.
  intros Hshadow.
  assert (Hpub : published (publish cfgvars_vars base_dir g) = Some (VStr path))
    by (now rewrite published_after_publish, Hshadow).
  split; [exact Hpub|].
  unfold initialise_config, bind, read_global.
  replace (dict_get "_initialized" (publish cfgvars_vars base_dir g))
    with (Some (VBool true)) by (symmetry; apply dict_get_set_same).
  cbn [truthy negb andb]. unfold published in Hpub. rewrite Hpub.
  eexists. reflexivity.
Qed.

Lemma shadowed_vars_breaks_second_call_witness :
  published (publish cfgvars_shadowing "/mnt/data" core_globals) = Some (VStr "/mnt/data/scratch")
  /\ exists msg,
       initialise_config lab_host cfgvars_shadowing (Some "/mnt/data/") None false true
         (publish cfgvars_shadowing "/mnt/data" core_globals)
       = (Raise (AttributeError msg), publish cfgvars_shadowing "/mnt/data" core_globals, []).
Proof.
  apply (shadowed_vars_breaks_second_call lab_host cfgvars_shadowing "/mnt/data"
           "/mnt/data/scratch" core_globals (Some "/mnt/data/") None).
  reflexivity.
Defined.

(** X4. A forced initialisation for the base directory that is already
    published changes the binding of no name. *)
Theorem republish_same_base (cfgvars_vars : dict value) (base_dir : string)
  (g : namespace) (name : string) :
  module_getattr (publish cfgvars_vars base_dir (publish cfgvars_vars base_dir g)) name
  = module_getattr (publish cfgvars_vars base_dir g) name.
Proof.
  unfold module_getattr. f_equal.
  set (T := table_of cfgvars_vars base_dir).
  assert (Hnd : NoDup (dict_keys T)) by apply table_of_NoDup.
  assert (Hlook : forall g0,
            dict_get name (publish cfgvars_vars base_dir g0) =
            if "_initialized" =? name then Some (VBool true)
            else match dict_get name T with
                 | Some v => Some v
                 | None => if "_vars" =? name then Some (VDict T) else dict_get name g0
                 end).
  { intros g0. unfold publish. fold T.
    destruct (String.eqb_spec "_initialized" name) as [<-|Hne].
    - apply dict_get_set_same.
    - rewrite dict_get_set_other by assumption.
      rewrite dict_get_update by assumption.
      destruct (dict_get name T); [reflexivity|].
      destruct (String.eqb_spec "_vars" name) as [<-|Hne'].
      + apply dict_get_set_same.
      + now rewrite dict_get_set_other. }
  rewrite (Hlook (publish cfgvars_vars base_dir g)), (Hlook g).
  destruct ("_initialized" =? name); [reflexivity|].
  destruct (dict_get name T); [reflexivity|].
  now destruct ("_vars" =? name).
Qed.

(** X5. A call that is not the no-op and returns normally has published
    the table of a base directory that exists on disk and is absolute (the
    working directory being absolute). *)
Theorem successful_call_base_dir (h : host) (cfgvars_vars : dict value)
  (base_data_dir keyword : option string) (force verbose : bool)
  (g g' : namespace) (out : list event) :
  PosixPath.isabs (getcwd h) = true ->
  initialised g && negb force = false ->
  initialise_config h cfgvars_vars base_data_dir keyword force verbose g = (Ok tt, g', out) ->
  exists base_dir,
    g' = publish cfgvars_vars base_dir g
    /\ path_exists h base_dir = true
    /\ PosixPath.isabs base_dir = true
    /\ initialised g' = true.
Proof.
  intros Hcwd Hnoop Hrun.
  destruct (dict_get "_initialized" g) as [flag|] eqn:Hflag.
  - unfold initialised in Hnoop. rewrite Hflag in Hnoop.
    rewrite (initialise_config_run _ _ _ _ _ _ _ flag Hflag Hnoop) in Hrun.
    destruct (determine_base_dir h base_data_dir keyword) as [base_dir|] eqn:Hdet;
      [|discriminate].
    injection Hrun as <- _. exists base_dir.
    destruct (determine_base_dir_abspath _ _ _ _ Hdet) as (p & Hp & Hex).
    repeat split; auto.
    + rewrite Hp. now apply abspath_isabs.
    + apply initialised_after_publish.
  - unfold initialise_config, bind, read_global in Hrun. rewrite Hflag in Hrun.
    discriminate.
Qed.

Lemma successful_call_base_dir_witness :
  exists base_dir,
    lab_initialised = publish cfgvars_here base_dir core_globals
    /\ path_exists lab_host base_dir = true
    /\ PosixPath.isabs base_dir = true
    /\ initialised lab_initialised = true.
Proof.
  apply (successful_call_base_dir lab_host cfgvars_here (Some "/mnt/data/") None false true
           core_globals lab_initialised
           [Stdout "Configuration initialised with base directory: /mnt/data"]);
    vm_compute; reflexivity.
Defined.

(** ** The variable table and the published table *)

Lemma import_vars_snoc (cfgvars_vars : dict value) (name : string) (val : value) :
  __import_vars_from_file (cfgvars_vars ++ [(name, val)])%list =
  match PyStr.startswith "_REL_" name, val with
  | true, VStr s =>
      (dict_set (PyStr.replace "_REL_" "" name) s (fst (__import_vars_from_file cfgvars_vars)),
       snd (__import_vars_from_file cfgvars_vars))
  | _, _ =>
      if negb (PyStr.startswith "_" name)
      then (fst (__import_vars_from_file cfgvars_vars),
            dict_set name val (snd (__import_vars_from_file cfgvars_vars)))
      else __import_vars_from_file cfgvars_vars
  end.
Proof.
  unfold __import_vars_from_file. rewrite fold_left_app. cbn [fold_left].
  match goal with
  | |- context [fold_left ?f cfgvars_vars ?a] =>
      destruct (fold_left f cfgvars_vars a) as [rel_paths constants]
  end. cbn [fst snd].
  destruct (PyStr.startswith "_REL_" name); destruct val;
    try reflexivity; destruct (negb (PyStr.startswith "_" name)); reflexivity.
Qed.

Lemma dict_set_In {V : Type} (k : string) (v : V) (d : dict V) (k' : string) (v' : V) :
  In (k', v') (dict_set k v d) -> (k', v') = (k, v) \/ In (k', v') d.
Proof.
  induction d as [|[k0 v0] r IH]; simpl.
  - intros [H|[]]. left. now symmetry.
  - destruct (String.eqb_spec k0 k) as [->|Hne]; simpl.
    + intros [H|H]; [left; now symmetry | right; now right].
    + intros [H|H]; [right; now left|]. destruct (IH H); [now left | right; now right].
Qed.

Lemma import_vars_NoDup (cfgvars_vars : dict value) :
  NoDup (dict_keys (fst (__import_vars_from_file cfgvars_vars)))
  /\ NoDup (dict_keys (snd (__import_vars_from_file cfgvars_vars))).
Proof.
  induction cfgvars_vars as [|[name val] r [IHr IHc]] using rev_ind.
  - split; constructor.
  - rewrite import_vars_snoc.
    destruct (PyStr.startswith "_REL_" name); destruct val; cbn [fst snd];
      try (destruct (negb (PyStr.startswith "_" name)); cbn [fst snd]);
      split; auto using dict_set_NoDup.
Qed.

Lemma resolved_of_NoDup (base_dir : string) (rel_paths : dict string) :
  NoDup (dict_keys (resolved_of base_dir rel_paths)).
Proof.
  unfold resolved_of.
  assert (H : forall acc : dict value, NoDup (dict_keys acc) ->
            NoDup (dict_keys (fold_left
              (fun a item => dict_set (fst item) (VStr (resolve base_dir (snd item))) a)
              rel_paths acc))).
  { induction rel_paths as [|x r IH]; intros acc Hacc; [exact Hacc|].
    cbn [fold_left]. apply IH. now apply dict_set_NoDup. }
  apply H. constructor.
Qed.

Lemma table_of_get (cfgvars_vars : dict value) (base_dir name : string) :
  dict_get name (table_of cfgvars_vars base_dir) =
  match dict_get name (snd (__import_vars_from_file cfgvars_vars)) with
  | Some v => Some v
  | None =>
      match dict_get name (resolved_of base_dir (fst (__import_vars_from_file cfgvars_vars)))
      with
      | Some v => Some v
      | None => if name =? "BASE_DATA_DIR" then Some (VStr base_dir) else None
      end
  end.
Proof.
  unfold table_of.
  destruct (import_vars_NoDup cfgvars_vars) as [_ Hc].
  destruct (__import_vars_from_file cfgvars_vars) as [rel_paths constants]. cbn [fst snd] in *.
  rewrite dict_get_update by assumption.
  destruct (dict_get name constants); [reflexivity|].
  rewrite dict_get_update by apply resolved_of_NoDup.
  destruct (dict_get name (resolved_of base_dir rel_paths)); [reflexivity|].
  cbn [dict_get]. now rewrite String.eqb_sym.
Qed.

(** X6. In the published table a constant of the variable table takes
    precedence over a resolved path of the same name, and both take
    precedence over [BASE_DATA_DIR]; a name that is none of the three is
    not in the table. *)
Theorem table_lookup_precedence (cfgvars_vars : dict value) (base_dir name : string) :
  let '(rel_paths, constants) := __import_vars_from_file cfgvars_vars in
  dict_get name (table_of cfgvars_vars base_dir) =
  match dict_get name constants with
  | Some v => Some v
  | None =>
      match dict_get name (resolved_of base_dir rel_paths) with
      | Some v => Some v
      | None => if name =? "BASE_DATA_DIR" then Some (VStr base_dir) else None
      end
  end.
Proof.
  generalize (table_of_get cfgvars_vars base_dir name).
  now destruct (__import_vars_from_file cfgvars_vars).
Qed.

Lemma startswith_REL_private (name : string) :
  PyStr.startswith "_REL_" name = true -> PyStr.startswith "_" name = true.
Proof.
  destruct name as [|a r]; [discriminate|].
  change "_REL_" with (String "_" "REL_"). change "_" with (String "_" "").
  rewrite !startswith_cons, startswith_nil. intros H.
  apply andb_true_iff in H as [-> _]. reflexivity.
Qed.

(** X7. The loader classifies by name: a name that it passes through as a
    constant does not start with an underscore and is a variable of the
    table, and an entry of the relative paths comes from a string variable
    whose name starts with [_REL_], under that name without its [_REL_]. *)
Theorem import_vars_classification (cfgvars_vars : dict value) :
  (forall name v, In (name, v) (snd (__import_vars_from_file cfgvars_vars)) ->
     PyStr.startswith "_" name = false /\ In (name, v) cfgvars_vars)
  /\ (forall name frag, In (name, frag) (fst (__import_vars_from_file cfgvars_vars)) ->
        exists var, In (var, VStr frag) cfgvars_vars
                    /\ PyStr.startswith "_REL_" var = true
                    /\ name = PyStr.replace "_REL_" "" var).
Proof.
  induction cfgvars_vars as [|[var val] r [IHc IHr]] using rev_ind.
  - split; intros ? ? [].
  - rewrite import_vars_snoc.
    assert (Hc : forall name v, In (name, v) (snd (__import_vars_from_file r)) ->
              PyStr.startswith "_" name = false /\ In (name, v) (r ++ [(var, val)])%list).
    { intros name v H. destruct (IHc _ _ H). split; [assumption | apply in_or_app; now left]. }
    assert (Hr : forall name frag, In (name, frag) (fst (__import_vars_from_file r)) ->
              exists var', In (var', VStr frag) (r ++ [(var, val)])%list
                           /\ PyStr.startswith "_REL_" var' = true
                           /\ name = PyStr.replace "_REL_" "" var').
    { intros name frag H. destruct (IHr _ _ H) as (v' & Hin & Hs & Hn).
      exists v'. split; [apply in_or_app; now left | auto]. }
    assert (Hconst : negb (PyStr.startswith "_" var) = true ->
              forall name v, In (name, v) (dict_set var val (snd (__import_vars_from_file r))) ->
              PyStr.startswith "_" name = false /\ In (name, v) (r ++ [(var, val)])%list).
    { intros Hpub name v H. apply negb_true_iff in Hpub.
      apply dict_set_In in H as [H|H]; [|auto].
      injection H as -> ->. split; [assumption | apply in_or_app; right; now left]. }
    assert (Hrel' : forall s, val = VStr s -> PyStr.startswith "_REL_" var = true ->
              forall name frag,
                In (name, frag) (dict_set (PyStr.replace "_REL_" "" var) s
                                          (fst (__import_vars_from_file r))) ->
                exists var', In (var', VStr frag) (r ++ [(var, val)])%list
                             /\ PyStr.startswith "_REL_" var' = true
                             /\ name = PyStr.replace "_REL_" "" var').
    { intros s -> Hrel name frag H. apply dict_set_In in H as [H|H]; [|auto].
      injection H as -> ->. exists var. repeat split; auto.
      apply in_or_app; right; now left. }
    destruct (PyStr.startswith "_REL_" var) eqn:Hrel; destruct val; cbn [fst snd];
      try (destruct (negb (PyStr.startswith "_" var)) eqn:Hpub; cbn [fst snd]);
      (split; [first [exact Hc | exact (Hconst eq_refl)]
              | first [exact Hr | exact (Hrel' _ eq_refl eq_refl)]]).
Qed.

(** X8. A constant passes through unchanged: a variable of the table whose
    name does not start with an underscore is bound to its value in the
    published table, whatever the base directory is. *)
Theorem constant_passes_through (cfgvars_vars : dict value) (base_dir name : string)
  (v : value) :
  NoDup (dict_keys cfgvars_vars) ->
  PyStr.startswith "_" name = false ->
  dict_get name cfgvars_vars = Some v ->
  dict_get name (table_of cfgvars_vars base_dir) = Some v.
Proof.
  intros Hnd Hpub Hget. rewrite table_of_get.
  assert (Hc : dict_get name (snd (__import_vars_from_file cfgvars_vars)) = Some v).
  { clear base_dir. revert Hnd Hget.
    induction cfgvars_vars as [|[var val] r IH] using rev_ind; intros Hnd Hget;
      [discriminate|].
    unfold dict_keys in Hnd. rewrite map_app in Hnd. cbn [map fst] in Hnd.
    apply NoDup_remove in Hnd as [Hnd Hnotin]. rewrite app_nil_r in Hnd, Hnotin.
    rewrite dict_get_app in Hget. cbn [dict_get] in Hget.
    rewrite import_vars_snoc.
    destruct (String.eqb_spec var name) as [->|Hne].
    - rewrite (dict_get_absent name r Hnotin) in Hget. injection Hget as ->.
      destruct (PyStr.startswith "_REL_" name) eqn:Hrel.
      + apply startswith_REL_private in Hrel. congruence.
      + rewrite Hpub. cbn [negb snd]. apply dict_get_set_same.
    - assert (Hr : dict_get name r = Some v) by (destruct (dict_get name r); congruence).
      specialize (IH Hnd Hr).
      destruct (PyStr.startswith "_REL_" var); destruct val; cbn [snd];
        try (destruct (negb (PyStr.startswith "_" var)); cbn [snd]);
        try assumption; now rewrite dict_get_set_other. }
  now rewrite Hc.
Qed.

Lemma constant_passes_through_witness :
  dict_get "NUM_TRS_ONE_FMRI_BLOCK" (table_of cfgvars_here "/mnt/data") = Some (VInt 418).
Proof.
  apply (constant_passes_through cfgvars_here "/mnt/data" "NUM_TRS_ONE_FMRI_BLOCK" (VInt 418));
    [|reflexivity|reflexivity].
  repeat (constructor; [cbv; intuition discriminate|]). constructor.
Defined.

(** ** The base directory found by keyword *)

Lemma join_split (c : ascii) (s : string) :
  PyStr.join (String c "") (PyStr.split c s) = s.
Proof.
  induction s as [|a r IH]; [reflexivity|].
  cbn [PyStr.split]. destruct (Ascii.eqb_spec a c) as [->|Hne].
  - destruct (PyStr.split c r) as [|x t] eqn:E; [now apply split_nonempty in E|].
    change (PyStr.join (String c "") ("" :: x :: t))
      with (String c (PyStr.join (String c "") (x :: t))).
    now rewrite IH.
  - destruct (PyStr.split c r) as [|x t] eqn:E; [now apply split_nonempty in E|].
    rewrite <- IH. destruct t; reflexivity.
Qed.

Lemma startswith_app_cancel (p x y : string) :
  PyStr.startswith (p ++ x) (p ++ y) = PyStr.startswith x y.
Proof.
  induction p as [|a r IH]; [reflexivity|].
  cbn [append]. now rewrite startswith_cons, Ascii.eqb_refl, IH.
Qed.

Lemma startswith_refl (s : string) : PyStr.startswith s s = true.
Proof.
  induction s as [|a r IH]; [reflexivity|]. now rewrite startswith_cons, Ascii.eqb_refl.
Qed.

Lemma join_firstn_prefix (sep : string) (l : list string) (n : nat) :
  0 < n -> PyStr.startswith (PyStr.join sep (firstn n l)) (PyStr.join sep l) = true.
Proof.
  revert n. induction l as [|p rest IH]; intros n Hn.
  - destruct n; reflexivity.
  - destruct n as [|n]; [lia|]. cbn [firstn].
    destruct rest as [|q rest']; [destruct n; apply startswith_refl|].
    destruct n as [|n].
    + cbn [firstn]. change (PyStr.join sep [p]) with p.
      change (PyStr.join sep (p :: q :: rest')) with (p ++ sep ++ PyStr.join sep (q :: rest')).
      apply startswith_append.
    + change (PyStr.join sep (p :: q :: rest')) with (p ++ sep ++ PyStr.join sep (q :: rest')).
      change (firstn (S n) (q :: rest')) with (q :: firstn n rest').
      change (PyStr.join sep (p :: q :: firstn n rest'))
        with (p ++ sep ++ PyStr.join sep (q :: firstn n rest')).
      rewrite !startswith_app_cancel.
      apply (IH (S n)). lia.
Qed.

Lemma endswith_append (p s : string) : PyStr.endswith p (s ++ p) = true.
Proof.
  induction s as [|a r IH]; cbn [append].
  - destruct p; cbn [PyStr.endswith]; now rewrite String.eqb_refl.
  - cbn [PyStr.endswith]. rewrite IH. apply orb_true_r.
Qed.

Lemma append_assoc (s t u : string) : (s ++ t) ++ u = s ++ (t ++ u).
Proof. induction s as [|a r IH]; [reflexivity|]. cbn [append]. now rewrite IH. Qed.

Lemma join_snoc (sep : string) (l : list string) (x : string) :
  l <> [] -> PyStr.join sep (l ++ [x]) = PyStr.join sep l ++ sep ++ x.
Proof.
  induction l as [|p rest IH]; intros Hne; [contradiction|].
  destruct rest as [|q rest']; [reflexivity|].
  change ((p :: q :: rest') ++ [x])%list with (p :: (q :: rest') ++ [x])%list.
  change (PyStr.join sep (p :: (q :: rest') ++ [x]))
    with (p ++ sep ++ PyStr.join sep ((q :: rest') ++ [x])).
  rewrite IH by discriminate.
  change (PyStr.join sep (p :: q :: rest')) with (p ++ sep ++ PyStr.join sep (q :: rest')).
  now rewrite !append_assoc.
Qed.

Lemma firstn_snoc_nth (l : list string) (i : nat) :
  i < List.length l -> firstn (i + 1) l = (firstn i l ++ [nth i l ""])%list.
Proof.
  revert i. induction l as [|p rest IH]; intros i Hi; [simpl in Hi; lia|].
  destruct i as [|i]; [reflexivity|].
  cbn [Nat.add firstn nth app]. f_equal. apply IH. simpl in Hi. lia.
Qed.

(** X9. The base directory that the keyword search returns is an ancestor
    of the working directory and ends with the keyword as its last
    segment: it is a prefix of the working directory, it ends with the
    separator followed by the keyword, and it exists on disk (for a
    working directory of the form that [os.getcwd] returns). *)
Theorem auto_base_is_ancestor (h : host) (keyword base_dir : string) :
  keyword <> "" ->
  normal_cwd (getcwd h) = true ->
  __auto_set_base_data_dir h keyword = Ok base_dir ->
  PyStr.startswith base_dir (getcwd h) = true
  /\ PyStr.endswith (os_sep ++ keyword) base_dir = true
  /\ path_exists h base_dir = true.
Proof.
  intros Hkw Hnormal Hauto. unfold __auto_set_base_data_dir in Hauto.
  destruct (PyStr.mem keyword (PyStr.split PosixPath.sep_char (getcwd h))) eqn:Hmem;
    cbn [negb] in Hauto; [|discriminate].
  destruct (PyStr.index keyword (PyStr.split PosixPath.sep_char (getcwd h))) as [idx|] eqn:Hidx;
    [|discriminate].
  destruct (rebuilt_path_normal h keyword idx Hkw Hnormal Hidx) as [Habs _].
  unfold __set_base_data_dir in Hauto. rewrite Habs in Hauto.
  destruct (path_exists h _) eqn:Hex; cbn [negb] in Hauto; [|discriminate].
  injection Hauto as <-. split; [|split; [|exact Hex]].
  - rewrite <- (join_split PosixPath.sep_char (getcwd h)) at 2.
    apply join_firstn_prefix. lia.
  - destruct (index_first _ _ _ Hidx) as [Hnth _].
    rewrite (firstn_snoc_nth _ _ (index_lt _ _ _ Hidx)), Hnth.
    assert (Hne : firstn idx (PyStr.split PosixPath.sep_char (getcwd h)) <> []).
    { destruct idx as [|i].
      - exfalso. destruct (PyStr.split PosixPath.sep_char (getcwd h)) as [|first rest] eqn:E;
          [discriminate|].
        simpl in Hnth. subst first.
        unfold normal_cwd in Hnormal. rewrite E in Hnormal.
        apply orb_true_iff in Hnormal as [Hroot|Hn].
        + apply String.eqb_eq in Hroot. rewrite Hroot in E. cbv in E.
          injection E as E _. now symmetry in E.
        + destruct rest; [discriminate|]. apply andb_true_iff in Hn as [Hn _].
          apply String.eqb_eq in Hn. contradiction.
      - destruct (PyStr.split PosixPath.sep_char (getcwd h)); [discriminate|].
        discriminate. }
    rewrite (join_snoc _ _ _ Hne). apply endswith_append.
Qed.

Lemma auto_base_is_ancestor_witness :
  PyStr.startswith "/mnt/lab/myproject1" (getcwd lab_host) = true
  /\ PyStr.endswith (os_sep ++ "myproject1") "/mnt/lab/myproject1" = true
  /\ path_exists lab_host "/mnt/lab/myproject1" = true.
Proof.
  apply (auto_base_is_ancestor lab_host "myproject1" "/mnt/lab/myproject1");
    [discriminate | reflexivity | reflexivity].
Defined.

(** ** Joining more than two segments *)

Lemma join_loop_app (path : string) (p q : list string) :
  PosixPath.join_loop path (p ++ q) = PosixPath.join_loop (PosixPath.join_loop path p) q.
Proof.
  revert path. induction p as [|b rest IH]; intros path; [reflexivity|].
  cbn [app PosixPath.join_loop]. apply IH.
Qed.

(** X10. [combine_paths] can be applied step by step: joining the first
    two segments first and the rest to the result gives the path of the
    single call. *)
Theorem combine_paths_stepwise (a b : string) (rest : list string) :
  combine_paths (a :: b :: rest) = combine_paths (resolve a b :: rest).
Proof.
  unfold combine_paths. fold clean_segment. cbn [map PosixPath.join].
  f_equal.
  assert (Hclean : clean_segment (resolve a b) = resolve a b).
  { rewrite clean_segment_chars. apply to_host_separators_id.
    unfold resolve. rewrite !clean_segment_chars. apply join_loop_no_backslash.
    - apply to_host_separators_no_backslash.
    - constructor; [apply to_host_separators_no_backslash | constructor]. }
  change (map (fun seg => PyStr.replace "\" os_sep (PyStr.replace "/" os_sep seg)) rest)
    with (map clean_segment rest).
  change (PyStr.replace "\" os_sep (PyStr.replace "/" os_sep a)) with (clean_segment a).
  change (PyStr.replace "\" os_sep (PyStr.replace "/" os_sep b)) with (clean_segment b).
  change (PyStr.replace "\" os_sep (PyStr.replace "/" os_sep (resolve a b)))
    with (clean_segment (resolve a b)).
  rewrite Hclean. reflexivity.
Qed.

(** X11. A segment that starts with ["/"] or with a backslash discards
    all the segments before it: when it is the last one, the result is
    that segment alone, with its separators normalised. *)
Theorem combine_paths_absolute_segment (segments : list string) (last : string) :
  PyStr.startswith "/" last || PyStr.startswith "\" last = true ->
  combine_paths (segments ++ [last]) = Ok (to_host_separators last).
Proof.
  intros Habs.
  assert (Hsep : PyStr.startswith PosixPath.sep (clean_segment last) = true).
  { rewrite clean_segment_chars. unfold PosixPath.sep.
    destruct last as [|c r]; [discriminate|].
    cbn [to_host_separators]. rewrite !startswith_cons, !startswith_nil, !andb_true_r in *.
    rewrite (Ascii.eqb_sym "/" c), (Ascii.eqb_sym "\" c) in Habs. rewrite Habs.
    reflexivity. }
  unfold combine_paths. fold clean_segment.
  change (map (fun seg => PyStr.replace "\" os_sep (PyStr.replace "/" os_sep seg)))
    with (map clean_segment).
  rewrite map_app. cbn [map].
  destruct (map clean_segment segments) as [|a p]; cbn [app PosixPath.join].
  - now rewrite clean_segment_chars.
  - rewrite join_loop_app. cbn [PosixPath.join_loop]. rewrite Hsep.
    now rewrite clean_segment_chars.
Qed.

Lemma combine_paths_absolute_segment_witness :
  combine_paths (["/mnt/data"; "subjects"] ++ ["\archive\2024"]) = Ok "/archive/2024".
Proof.
  apply (combine_paths_absolute_segment ["/mnt/data"; "subjects"] "\archive\2024").
  reflexivity.
Defined.

(** ** [verify_paths] *)






Lemma all_chars_has_char (p : ascii -> bool) (c : ascii) (s : string) :
  all_chars p s = true -> PyStr.has_char c s = true -> p c = true.
Proof.
  induction s as [|a r IH]; [discriminate|].
  cbn [all_chars PyStr.has_char]. intros Hall Hc.
  apply andb_true_iff in Hall as [Ha Hr].
  apply orb_true_iff in Hc as [Hc|Hc]; [|auto].
  apply Ascii.eqb_eq in Hc. now subst a.
Qed.

(** X13. The dictionary that [verify_paths] builds binds a name exactly
    when the table binds it to a string that holds a separator and is made
    of the characters of the pattern, and then to whether that path is on
    disk; a string with any other character, a glob pattern for one, is
    never given an entry. *)
Theorem verify_paths_reports_plain_paths (h : host) (vars : dict value) (name : string) :
  NoDup (dict_keys vars) ->
  dict_get name (verify_paths_pths h vars) =
  match dict_get name vars with
  | Some v => option_map (path_exists h) (looks_like_path v)
  | None => None
  end
  /\ forall (s : string) (c : ascii),
       dict_get name vars = Some (VStr s) ->
       path_char c = false -> PyStr.has_char c s = true ->
       dict_get name (verify_paths_pths h vars) = None.
Proof.
  intros Hnd. split; [now apply verify_paths_pths_spec|].
  intros s c Hget Hc Hin. rewrite verify_paths_pths_spec, Hget by assumption.
  unfold looks_like_path.
  destruct (re_match_path_pattern s) eqn:Hm; [|now rewrite andb_false_r].
  unfold re_match_path_pattern in Hm. apply andb_true_iff in Hm as [_ Hall].
  rewrite (all_chars_has_char _ _ _ Hall Hin) in Hc. discriminate.
Qed.

Lemma verify_paths_reports_plain_paths_witness :
  dict_get "SPECTRO"
    (verify_paths_pths lab_host [ ("SPECTRO", VStr "/data/*/MRS-data");
                                  ("ROOT", VStr "/mnt/data") ]) = None.
Proof.
  destruct (verify_paths_reports_plain_paths lab_host
              [ ("SPECTRO", VStr "/data/*/MRS-data"); ("ROOT", VStr "/mnt/data") ] "SPECTRO")
    as [_ Hglob].
  - repeat (constructor; [cbv; intuition discriminate|]). constructor.
  - exact (Hglob "/data/*/MRS-data" "*"%char eq_refl eq_refl eq_refl).
Defined.

(** ** [get_config_vars] and [print_config_vars] *)

Lemma distinct_NoDup (l : list string) : distinct l = true -> NoDup l.
Proof.
  induction l as [|x r IH]; intros H; [constructor|].
  cbn [distinct] in H. apply andb_true_iff in H as [Hx Hr].
  constructor; [|auto].
  intros Hin. apply negb_true_iff in Hx. unfold PyStr.mem in Hx.
  assert (Hex : existsb (String.eqb x) r = true)
    by (apply existsb_exists; exists x; split; [assumption | apply String.eqb_refl]).
  congruence.
Qed.

Lemma insert_member_keys (item : string * value) (l : dict value) (k : string) :
  In k (dict_keys (insert_member item l)) <-> k = fst item \/ In k (dict_keys l).
Proof.
  induction l as [|x r IH]; cbn [insert_member].
  - simpl. intuition.
  - destruct (String.leb (fst item) (fst x)); simpl in *; [intuition|].
    rewrite IH. intuition.
Qed.

Lemma insert_member_NoDup (item : string * value) (l : dict value) :
  ~ In (fst item) (dict_keys l) -> NoDup (dict_keys l) ->
  NoDup (dict_keys (insert_member item l)).
Proof.
  induction l as [|x r IH]; cbn [insert_member]; intros Hnotin Hnd.
  - constructor; [intros [] | constructor].
  - destruct (String.leb (fst item) (fst x)).
    + now constructor.
    + inversion Hnd as [|? ? Hx Hr]; subst. simpl in Hnotin. simpl. constructor.
      * intros Hin. apply insert_member_keys in Hin as [Hin|Hin]; [|contradiction].
        apply Hnotin. now left.
      * apply IH; auto.
Qed.

Lemma insert_member_get (k : string) (v : value) (l : dict value) (name : string) :
  ~ In k (dict_keys l) ->
  dict_get name (insert_member (k, v) l) = if k =? name then Some v else dict_get name l.
Proof.
  induction l as [|[k0 v0] r IH]; cbn [insert_member fst]; intros Hnotin.
  - reflexivity.
  - destruct (String.leb k k0); [reflexivity|].
    cbn [dict_get]. simpl in Hnotin.
    destruct (String.eqb_spec k0 name) as [->|Hne].
    + destruct (String.eqb_spec k name) as [->|_]; [|reflexivity].
      exfalso. apply Hnotin. now left.
    + apply IH. intros Hin. apply Hnotin. now right.
Qed.

Lemma getmembers_keys (g : namespace) (k : string) :
  In k (dict_keys (getmembers g)) <-> In k (dict_keys g).
Proof.
  induction g as [|x r IH]; [reflexivity|].
  unfold getmembers in *. cbn [fold_right]. rewrite insert_member_keys, IH.
  simpl. intuition.
Qed.

Lemma getmembers_NoDup (g : namespace) :
  NoDup (dict_keys g) -> NoDup (dict_keys (getmembers g)).
Proof.
  induction g as [|x r IH]; intros Hnd; [constructor|].
  inversion Hnd as [|? ? Hx Hr]; subst.
  unfold getmembers. cbn [fold_right]. apply insert_member_NoDup; [|now apply IH].
  intros Hin. apply Hx. exact (proj1 (getmembers_keys r (fst x)) Hin).
Qed.

Lemma getmembers_get (g : namespace) (name : string) :
  NoDup (dict_keys g) -> dict_get name (getmembers g) = dict_get name g.
Proof.
  induction g as [|[k v] r IH]; intros Hnd; [reflexivity|].
  inversion Hnd as [|? ? Hx Hr]; subst.
  unfold getmembers. cbn [fold_right]. rewrite insert_member_get.
  - cbn [dict_get]. destruct (k =? name); [reflexivity | now apply IH].
  - intros Hin. apply Hx. exact (proj1 (getmembers_keys r k) Hin).
Qed.

Lemma config_vars_step (members : dict value) (name : string) (val : value) :
  fold_left
    (fun variables item =>
       let '(name, val) := item in
       if negb (PyStr.startswith "_" name) && is_config_type val
       then dict_set name val variables
       else variables)
    (members ++ [(name, val)])%list [] =
  let variables :=
    fold_left
      (fun variables item =>
         let '(name, val) := item in
         if negb (PyStr.startswith "_" name) && is_config_type val
         then dict_set name val variables
         else variables)
      members [] in
  if negb (PyStr.startswith "_" name) && is_config_type val
  then dict_set name val variables
  else variables.
Proof. now rewrite fold_left_app. Qed.

Lemma get_config_vars_get (g : namespace) (name : string) :
  NoDup (dict_keys g) ->
  dict_get name (get_config_vars g) =
  match dict_get name g with
  | Some v => if negb (PyStr.startswith "_" name) && is_config_type v then Some v else None
  | None => None
  end.
Proof.
  intros Hnd. rewrite <- (getmembers_get g name Hnd).
  apply getmembers_NoDup in Hnd. unfold get_config_vars.
  induction (getmembers g) as [|[k v] r IH] using rev_ind; [reflexivity|].
  unfold dict_keys in Hnd. rewrite map_app in Hnd. cbn [map fst] in Hnd.
  apply NoDup_remove in Hnd as [Hnd Hnotin]. rewrite app_nil_r in Hnd, Hnotin.
  rewrite config_vars_step, dict_get_app. cbv zeta. cbn [dict_get].
  destruct (String.eqb_spec k name) as [->|Hne].
  - rewrite (dict_get_absent name r Hnotin).
    destruct (negb (PyStr.startswith "_" name) && is_config_type v).
    + apply dict_get_set_same.
    + rewrite (IH Hnd), (dict_get_absent name r Hnotin). reflexivity.
  - destruct (negb (PyStr.startswith "_" k) && is_config_type v).
    + rewrite dict_get_set_other by assumption. rewrite (IH Hnd).
      now destruct (dict_get name r).
    + rewrite (IH Hnd). now destruct (dict_get name r).
Qed.

(** X14. [get_config_vars] reports a name with a value exactly when the
    module binds the name to that value, the name does not start with an
    underscore and the value is data (a string, a number, a boolean, a
    dictionary, a list or a tuple): no function, module or private name
    is reported. *)
Theorem get_config_vars_public_data (g : namespace) (name : string) (v : value) :
  NoDup (dict_keys g) ->
  dict_get name (get_config_vars g) = Some v <->
  module_getattr g name = Ok v
  /\ PyStr.startswith "_" name = false
  /\ is_config_type v = true.
Proof.
  intros Hnd. rewrite (get_config_vars_get g name Hnd). unfold module_getattr.
  destruct (dict_get name g) as [v0|].
  - destruct (PyStr.startswith "_" name); cbn [negb andb].
    + split; [discriminate | intros (_ & H & _); discriminate].
    + destruct (is_config_type v0) eqn:Ht.
      * split; [intros H; injection H as <-; auto
               | intros (H & _ & _); injection H as <-; reflexivity].
      * split; [discriminate|]. intros (H & _ & Hv). injection H as <-. congruence.
  - split; [discriminate | intros (H & _); discriminate].
Qed.

Lemma get_config_vars_public_data_witness :
  dict_get "combine_paths" (get_config_vars core_globals) = Some (VObj "function combine_paths")
  <-> module_getattr core_globals "combine_paths" = Ok (VObj "function combine_paths")
      /\ PyStr.startswith "_" "combine_paths" = false
      /\ is_config_type (VObj "function combine_paths") = true.
Proof.
  apply (get_config_vars_public_data core_globals "combine_paths"
           (VObj "function combine_paths")).
  apply distinct_NoDup. reflexivity.
Defined.

Lemma publish_NoDup (cfgvars_vars : dict value) (base_dir : string) (g : namespace) :
  NoDup (dict_keys g) -> NoDup (dict_keys (publish cfgvars_vars base_dir g)).
Proof.
  intros Hnd. unfold publish.
  apply dict_set_NoDup, dict_update_NoDup, dict_set_NoDup, Hnd.
Qed.

(** X15. After the table is published, [get_config_vars] reports every
    entry of the table whose name does not start with an underscore and
    whose value is data, with the value of the table. *)
Theorem get_config_vars_after_publish (cfgvars_vars : dict value) (base_dir : string)
  (g : namespace) (name : string) (v : value) :
  NoDup (dict_keys g) ->
  PyStr.startswith "_" name = false ->
  is_config_type v = true ->
  dict_get name (table_of cfgvars_vars base_dir) = Some v ->
  dict_get name (get_config_vars (publish cfgvars_vars base_dir g)) = Some v.
Proof.
  intros Hnd Hpub Htype Hget.
  rewrite (get_config_vars_get _ name (publish_NoDup cfgvars_vars base_dir g Hnd)).
  assert (Hlook : dict_get name (publish cfgvars_vars base_dir g) = Some v).
  { unfold publish.
    rewrite dict_get_set_other by (intros <-; discriminate).
    rewrite dict_get_update by apply table_of_NoDup. now rewrite Hget. }
  now rewrite Hlook, Hpub, Htype.
Qed.

Lemma get_config_vars_after_publish_witness :
  dict_get "DICOM_ROOT_PATH" (get_config_vars lab_initialised)
  = Some (VStr "/mnt/data/this/is/a/path/to/root").
Proof.
  apply (get_config_vars_after_publish cfgvars_here "/mnt/data" core_globals
           "DICOM_ROOT_PATH" (VStr "/mnt/data/this/is/a/path/to/root"));
    [apply distinct_NoDup | | | ]; reflexivity.
Defined.



(* ================================================================== *)
(** * Properties of the template [config_paths_and_vars.py] *)

Lemma before_first_prefix (key s : string) :
  exists rest, s = Template.before_first key s ++ rest
               /\ (occurs key s = true -> PyStr.startswith key rest = true).
Proof.
  induction s as [|c r (rest & Hr & Hocc)].
  - exists "". split; [reflexivity|]. cbn [occurs]. now rewrite orb_false_r.
  - cbn [Template.before_first occurs].
    destruct (String.prefix key (String c r)) eqn:Hp.
    + exists (String c r). split; [reflexivity | intros _; exact Hp].
    + exists rest. split; [cbn [append]; now rewrite <- Hr | exact Hocc].
Qed.

Lemma before_first_minimal (key s prefix gap tail : string) :
  Template.before_first key s = prefix ++ gap ->
  gap <> "" ->
  s = prefix ++ gap ++ tail ->
  PyStr.startswith key (gap ++ tail) = false.
Proof.
  revert prefix. induction s as [|c r IH]; intros prefix Hbefore Hgap Hs.
  - destruct prefix; destruct gap; try discriminate. contradiction.
  - cbn [Template.before_first] in Hbefore.
    destruct (String.prefix key (String c r)) eqn:Hp.
    + destruct prefix; destruct gap; try discriminate. contradiction.
    + destruct prefix as [|c' prefix'].
      * cbn [append] in Hbefore, Hs. now rewrite <- Hs.
      * cbn [append] in Hbefore, Hs. injection Hbefore as _ Hb. injection Hs as _ Hs'.
        now apply (IH prefix').
Qed.

Lemma template_paths (drive : string) :
  Template.combine_all drive
    [ ("DICOM_ROOT_PATH", Template.__REL_DICOM_ROOT_PATH);
      ("SPECTRO_TEMPLATE", Template.__REL_SPECTRO_TEMPLATE);
      ("DCM_PATTERN", Template.__REL_DCM_PATTERN) ] [] =
  Ok [ ("DICOM_ROOT_PATH", resolve drive Template.__REL_DICOM_ROOT_PATH);
       ("SPECTRO_TEMPLATE", resolve drive Template.__REL_SPECTRO_TEMPLATE);
       ("DCM_PATTERN", resolve drive Template.__REL_DCM_PATTERN) ].
Proof.
  cbn [Template.combine_all]. now rewrite !combine_paths_pair.
Qed.

(** X17. [initialize_paths] succeeds exactly when the keyword [Work]
    occurs somewhere in the absolute path of the script, as a piece of
    text and not as a directory name; [DRIVE] is then the text before the
    first occurrence, and the result has the three paths and [DRIVE].
    Otherwise the error is a [RuntimeError]. *)
Theorem initialize_paths_drive (h : host) (file : string) :
  let script_path := PosixPath.abspath h file in
  if occurs "Work" script_path
  then exists drive rest,
         script_path = drive ++ "Work" ++ rest
         /\ (forall prefix gap, drive = prefix ++ gap -> gap <> "" ->
               PyStr.startswith "Work" (gap ++ "Work" ++ rest) = false)
         /\ Template.initialize_paths h file
            = Template.Returned
                [ ("DICOM_ROOT_PATH", resolve drive "this/is/a/path/to/root");
                  ("SPECTRO_TEMPLATE", resolve drive "ishere/*/*/MRS-data");
                  ("DCM_PATTERN",
                    resolve drive "this/is/a/path/to/root/{subject}/SCANS/*/DICOM/*.dcm");
                  ("DRIVE", drive) ]
  else exists msg, Template.initialize_paths h file
                   = Template.Raised (Template.RuntimeError msg).
Proof.
  cbv zeta. unfold Template.initialize_paths.
  change Template.__KEYDIR_TO_IDENTIFY_DRIVE with "Work".
  destruct (occurs "Work" (PosixPath.abspath h file)) eqn:Hocc; [|eauto].
  destruct (before_first_prefix "Work" (PosixPath.abspath h file)) as (rest0 & Hsplit & Hstart).
  destruct (startswith_split _ _ (Hstart Hocc)) as [rest Hrest].
  exists (Template.before_first "Work" (PosixPath.abspath h file)), rest.
  split; [now rewrite <- Hrest|]. split.
  - intros prefix gap Hdrive Hgap.
    apply (before_first_minimal "Work" (PosixPath.abspath h file) prefix gap ("Work" ++ rest));
      [exact Hdrive | exact Hgap|].
    rewrite Hsplit at 1. rewrite Hdrive, Hrest. apply append_assoc.
  - rewrite template_paths. reflexivity.
Qed.

Lemma has_char_prefix (c : ascii) (s t : string) :
  PyStr.has_char c (s ++ t) = false -> PyStr.has_char c s = false.
Proof. rewrite has_char_append. intros H. now apply orb_false_iff in H. Qed.

(** X18. Every path that [initialize_paths] returns starts with [DRIVE],
    when the path of the script holds no backslash. *)
Theorem initialize_paths_below_drive (h : host) (file : string) (paths : dict string)
  (name path : string) :
  PyStr.has_char "\" (PosixPath.abspath h file) = false ->
  Template.initialize_paths h file = Template.Returned paths ->
  dict_get name paths = Some path ->
  exists drive,
    dict_get "DRIVE" paths = Some drive /\ PyStr.startswith drive path = true.
Proof.
  intros Hbs Hinit Hget. unfold Template.initialize_paths in Hinit.
  destruct (occurs Template.__KEYDIR_TO_IDENTIFY_DRIVE (PosixPath.abspath h file));
    [|discriminate].
  rewrite template_paths in Hinit. injection Hinit as <-.
  set (drive := Template.before_first Template.__KEYDIR_TO_IDENTIFY_DRIVE
                  (PosixPath.abspath h file)) in *.
  exists drive. split; [reflexivity|].
  assert (Hdrive : PyStr.has_char "\" drive = false).
  { destruct (before_first_prefix Template.__KEYDIR_TO_IDENTIFY_DRIVE
                (PosixPath.abspath h file)) as (rest & Hsplit & _).
    fold drive in Hsplit. rewrite Hsplit in Hbs. now apply has_char_prefix in Hbs. }
  assert (Hrel : forall frag, relative_fragment frag = true ->
            PyStr.startswith drive (resolve drive frag) = true).
  { intros frag Hfrag. rewrite (resolve_relative drive frag Hdrive Hfrag).
    destruct ((drive =? "") || PyStr.endswith PosixPath.sep drive); apply startswith_append. }
  change (dict_set "DRIVE" drive
            [ ("DICOM_ROOT_PATH", resolve drive Template.__REL_DICOM_ROOT_PATH);
              ("SPECTRO_TEMPLATE", resolve drive Template.__REL_SPECTRO_TEMPLATE);
              ("DCM_PATTERN", resolve drive Template.__REL_DCM_PATTERN) ])
    with [ ("DICOM_ROOT_PATH", resolve drive Template.__REL_DICOM_ROOT_PATH);
           ("SPECTRO_TEMPLATE", resolve drive Template.__REL_SPECTRO_TEMPLATE);
           ("DCM_PATTERN", resolve drive Template.__REL_DCM_PATTERN);
           ("DRIVE", drive) ] in Hget.
  cbn [dict_get] in Hget.
  repeat match type of Hget with
         | (if ?k =? name then _ else _) = _ =>
             destruct (k =? name);
             [injection Hget as <-; first [now apply Hrel | apply startswith_refl]|]
         end.
  discriminate.
Qed.

Lemma initialize_paths_below_drive_witness :
  exists drive,
    dict_get "DRIVE"
      [ ("DICOM_ROOT_PATH", "/mnt/My/this/is/a/path/to/root");
        ("SPECTRO_TEMPLATE", "/mnt/My/ishere/*/*/MRS-data");
        ("DCM_PATTERN", "/mnt/My/this/is/a/path/to/root/{subject}/SCANS/*/DICOM/*.dcm");
        ("DRIVE", "/mnt/My") ] = Some drive
    /\ PyStr.startswith drive "/mnt/My/ishere/*/*/MRS-data" = true.
Proof.
  apply (initialize_paths_below_drive lab_host "/mnt/MyWorkshop/lab/config_paths_and_vars.py"
           _ "SPECTRO_TEMPLATE" "/mnt/My/ishere/*/*/MRS-data"); reflexivity.
Defined.

Lemma print_rows_outcome (variables : dict value) (vars : list string) :
  match snd (Template.print_rows variables vars) with
  | None =>
      fst (Template.print_rows variables vars)
      = map (fun var => Row var match dict_get var variables with
                                | Some v => v
                                | None => VNone
                                end) vars
      /\ Forall (fun var => dict_get var variables <> None) vars
  | Some e =>
      exists before var after,
        vars = (before ++ var :: after)%list
        /\ Forall (fun x => dict_get x variables <> None) before
        /\ dict_get var variables = None
        /\ e = Template.KeyError ("Variable with name '" ++ var
                                  ++ "' not  found config variables.")
        /\ List.length (fst (Template.print_rows variables vars)) = List.length before
  end.
Proof.
  induction vars as [|var rest IH]; [split; [reflexivity | constructor]|].
  cbn [Template.print_rows].
  destruct (dict_get var variables) as [v|] eqn:Hv.
  - destruct (Template.print_rows variables rest) as [rows [e|]]; cbn [fst snd] in *.
    + destruct IH as (before & x & after & -> & Hb & Hx & He & Hlen).
      exists (var :: before), x, after. repeat split; auto.
      * constructor; [congruence | assumption].
      * cbn [List.length]. now rewrite Hlen.
    + destruct IH as [Hrows Hall]. split.
      * cbn [map]. now rewrite Hv, Hrows.
      * constructor; [congruence | assumption].
  - cbn [fst snd]. exists [], var, rest. repeat split; auto.
Qed.

(** X19. The template's [print_config_vars] stops at the first name asked
    for that is no configuration variable, with a [KeyError] naming it:
    the rows of the names before it are printed, the closing line is not;
    where the module [config.core] prints [<not found>] and goes on.  With
    every name known, there is no error and the closing line ends the
    output. *)
Theorem template_print_stops_at_unknown (file : string) (var : string) (rest : list string)
  (g : namespace) :
  let '(lines, error) := Template.print_config_vars file (Some (var :: rest)) g in
  match error with
  | None =>
      Forall (fun x => dict_get x (get_config_vars g) <> None) (var :: rest)
      /\ last lines (Line "") = Line (repeat_char "=" 81)
      /\ List.length lines = 3 + List.length (var :: rest) + 1
  | Some e =>
      exists before unknown after,
        var :: rest = (before ++ unknown :: after)%list
        /\ Forall (fun x => dict_get x (get_config_vars g) <> None) before
        /\ dict_get unknown (get_config_vars g) = None
        /\ e = Template.KeyError ("Variable with name '" ++ unknown
                                  ++ "' not  found config variables.")
        /\ List.length lines = 3 + List.length before
  end.
Proof.
  unfold Template.print_config_vars.
  generalize (print_rows_outcome (get_config_vars g) (var :: rest)).
  destruct (Template.print_rows (get_config_vars g) (var :: rest)) as [rows [e|]];
    cbn [fst snd].
  - intros (before & unknown & after & Hvars & Hb & Hx & He & Hlen).
    exists before, unknown, after. repeat split; auto.
    rewrite length_app. cbn [List.length]. now rewrite Hlen.
  - intros [Hrows Hall]. split; [exact Hall|]. split.
    + rewrite app_assoc. apply last_last.
    + rewrite !length_app, Hrows, length_map. cbn [List.length]. lia.
Qed.

(* ================================================================== *)
(** * Properties of the modality rules of [config/cfgvars.py] *)

Lemma occurs_append_r (key x y : string) :
  occurs key x = true -> occurs key (x ++ y) = true.
Proof.
  induction x as [|c r IH]; cbn [occurs append].
  - rewrite orb_false_r. intros H. destruct key; [|discriminate].
    destruct y; reflexivity.
  - intros H. apply orb_true_iff in H as [H|H].
    + change (String c (r ++ y)) with (String c r ++ y).
      change (String.prefix key (String c r ++ y))
        with (PyStr.startswith key (String c r ++ y)).
      now rewrite (startswith_append_l key (String c r) y H).
    + rewrite (IH H). apply orb_true_r.
Qed.

Lemma occurs_append_l (key x y : string) :
  occurs key x = true -> occurs key (y ++ x) = true.
Proof.
  intros H. induction y as [|c r IH]; [exact H|].
  cbn [append occurs]. rewrite IH. apply orb_true_r.
Qed.

Lemma occurs_self (key y : string) : occurs key (y ++ key) = true.
Proof.
  apply occurs_append_l. destruct key as [|c r]; [reflexivity|].
  cbn [occurs]. change (String.prefix (String c r) (String c r))
    with (PyStr.startswith (String c r) (String c r)).
  now rewrite startswith_refl.
Qed.

(** X20. The rules are not exclusive, although the comment above them
    says so: every description that the rule [T1w] accepts still is
    accepted by it, and by the rule [T2w] as well, once [t2] is added to
    it. *)
Theorem modality_rules_overlap (x : string) :
  In "T1w" (modalities_of x) ->
  In "T1w" (modalities_of (x ++ "t2")) /\ In "T2w" (modalities_of (x ++ "t2")).
Proof.
  unfold modalities_of, MODALITY_CONDITIONS. cbn [filter snd].
  destruct (occurs "t1" x && occurs "UNI" x && occurs "0.75" x) eqn:Ht1.
  - intros _. apply andb_true_iff in Ht1 as [Ht1 H075].
    apply andb_true_iff in Ht1 as [Ht1 Huni].
    rewrite (occurs_append_r "t1" x "t2" Ht1), (occurs_append_r "UNI" x "t2" Huni),
      (occurs_append_r "0.75" x "t2" H075), (occurs_self "t2" x).
    cbn [andb map fst]. split; [now left | right; now left].
  - intros Hin. exfalso. revert Hin.
    repeat match goal with
           | |- context [if ?b then _ else _] => destruct b
           end; cbn [map fst In]; intuition discriminate.
Qed.

Lemma modality_rules_overlap_witness :
  In "T1w" (modalities_of ("t1_mp2rage_UNI_0.75iso" ++ "t2"))
  /\ In "T2w" (modalities_of ("t1_mp2rage_UNI_0.75iso" ++ "t2")).
Proof.
  apply (modality_rules_overlap "t1_mp2rage_UNI_0.75iso"). cbv. now left.
Defined.

(** X21. The rules other than [fMRI] only ask for pieces of text: a label
    [T1w], [T2w], [DWI] or [DTI] that a description has is kept when text
    is put before or after the description. *)
Theorem modality_kept_by_longer_description (label x before after : string) :
  label <> "fMRI" ->
  In label (modalities_of x) ->
  In label (modalities_of (before ++ x ++ after)).
Proof.
  intros Hfmri.
  assert (Hmono : forall key, occurs key x = true ->
            occurs key (before ++ x ++ after) = true)
    by (intros key H; now apply occurs_append_l, occurs_append_r).
  unfold modalities_of, MODALITY_CONDITIONS. cbn [filter snd].
  destruct (occurs "t1" x) eqn:A1; [rewrite (Hmono _ A1)|];
  destruct (occurs "UNI" x) eqn:A2; [rewrite (Hmono _ A2)| |rewrite (Hmono _ A2)|];
  destruct (occurs "0.75" x) eqn:A3; try rewrite (Hmono _ A3);
  destruct (occurs "t2" x) eqn:A4; try rewrite (Hmono _ A4);
  destruct (occurs "resolve_COR" x) eqn:A5; try rewrite (Hmono _ A5);
  destruct (occurs "dti" x) eqn:A6; try rewrite (Hmono _ A6);
  cbn [andb];
  repeat match goal with
         | |- context [if ?b then _ else _] => destruct b
         end;
  cbn [map fst In]; intuition congruence.
Qed.

Lemma modality_kept_by_longer_description_witness :
  In "DTI" (modalities_of ("ep2d_" ++ "dti_64dir" ++ "_AP")).
Proof.
  apply (modality_kept_by_longer_description "DTI" "dti_64dir" "ep2d_" "_AP").
  - discriminate.
  - cbv. now left.
Defined.

(* ================================================================== *)
(** * The claims restated after review *)

(** ** Idempotence and the name [_vars] *)

(** C2 (defect in the code). The second call is no no-op in every
    initialised state.  With the variable [_REL__vars] in the table, the
    first call publishes an entry named [_vars]; [globals().update(_vars)]
    rebinds the global [_vars] to that path, a string; the module is
    initialised, and the next call with [force=False] and [verbose=True]
    raises an [AttributeError] at [_vars.get], where the first branch of
    [initialise_config] means to print and return.  (Where [_vars] is
    bound to a table the call does return, by
    [initialise_config_idempotent].) *)
Theorem second_call_raises_when_vars_shadowed :
  initialise_config lab_host cfgvars_shadowing (Some "/mnt/data/") None false true core_globals
  = (Ok tt, lab_shadowed, [Stdout "Configuration initialised with base directory: /mnt/data"])
  /\ initialised lab_shadowed = true
  /\ published lab_shadowed = Some (VStr "/mnt/data/scratch")
  /\ initialise_config lab_host cfgvars_shadowing (Some "/mnt/data/") None false true
       lab_shadowed
     = (Raise (AttributeError "object has no attribute 'get'"), lab_shadowed, [])
  /\ initialise_config lab_host cfgvars_shadowing (Some "/mnt/data/") None false false
       lab_shadowed
     = (Ok tt, lab_shadowed, []).
Proof. repeat split; vm_compute; reflexivity. Qed.

(** ** A base directory that does not exist, restated *)



(** ** Resolved paths and the base directory, restated *)

Lemma resolved_of_snoc (base_dir : string) (rel_paths : dict string) (name frag : string) :
  resolved_of base_dir (rel_paths ++ [(name, frag)])%list
  = dict_set name (VStr (resolve base_dir frag)) (resolved_of base_dir rel_paths).
Proof. unfold resolved_of. now rewrite fold_left_app. Qed.

Lemma resolved_of_get (base_dir : string) (rel_paths : dict string) (name : string) :
  NoDup (dict_keys rel_paths) ->
  dict_get name (resolved_of base_dir rel_paths)
  = option_map (fun frag => VStr (resolve base_dir frag)) (dict_get name rel_paths).
Proof.
  induction rel_paths as [|[k frag] r IH] using rev_ind; intros Hnd; [reflexivity|].
  unfold dict_keys in Hnd. rewrite map_app in Hnd. cbn [map fst] in Hnd.
  apply NoDup_remove in Hnd as [Hnd Hnotin]. rewrite app_nil_r in Hnd, Hnotin.
  rewrite resolved_of_snoc, dict_get_app. cbn [dict_get].
  destruct (String.eqb_spec k name) as [->|Hne].
  - now rewrite dict_get_set_same, (dict_get_absent name r Hnotin).
  - rewrite dict_get_set_other by assumption. rewrite (IH Hnd).
    now destruct (dict_get name r).
Qed.

Lemma isabs_nonempty (s : string) : PosixPath.isabs s = true -> (s =? "") = false.
Proof. now destruct s. Qed.

(** C4, amended. For a base directory that [initialise_config] determined
    (the working directory being absolute) and that holds no backslash,
    an entry of the relative paths whose fragment starts with neither
    ["/"] nor a backslash is resolved to the base directory, a separator
    unless the base directory ends with one, and the fragment with its
    separators normalised: an absolute path that starts with the base
    directory.  The fragments of the other entries do not matter. *)
Theorem resolved_entry_below_base (h : host) (cfgvars_vars : dict value)
  (base_data_dir keyword : option string) (base_dir name frag : string) :
  PosixPath.isabs (getcwd h) = true ->
  determine_base_dir h base_data_dir keyword = Ok base_dir ->
  PyStr.has_char "\" base_dir = false ->
  dict_get name (fst (__import_vars_from_file cfgvars_vars)) = Some frag ->
  relative_fragment frag = true ->
  exists path,
    dict_get name (resolved_of base_dir (fst (__import_vars_from_file cfgvars_vars)))
    = Some (VStr path)
    /\ combine_paths [base_dir; frag] = Ok path
    /\ path = base_dir
              ++ (if PyStr.endswith PosixPath.sep base_dir then "" else PosixPath.sep)
              ++ to_host_separators frag
    /\ PosixPath.isabs path = true
    /\ PyStr.startswith base_dir path = true.
Proof.
  intros Hcwd Hdet Hbs Hget Hrel.
  destruct (determine_base_dir_abspath _ _ _ _ Hdet) as (p & Hp & _).
  assert (Habs : PosixPath.isabs base_dir = true)
    by (rewrite Hp; now apply abspath_isabs).
  exists (resolve base_dir frag).
  split; [|split; [reflexivity|]].
  - rewrite resolved_of_get by apply import_vars_NoDup. now rewrite Hget.
  - rewrite (resolve_relative base_dir frag Hbs Hrel), (isabs_nonempty _ Habs). cbn [orb].
    assert (Hform : (if PyStr.endswith PosixPath.sep base_dir
                     then base_dir ++ to_host_separators frag
                     else base_dir ++ PosixPath.sep ++ to_host_separators frag)
                    = base_dir
                      ++ (if PyStr.endswith PosixPath.sep base_dir then "" else PosixPath.sep)
                      ++ to_host_separators frag)
      by (destruct (PyStr.endswith PosixPath.sep base_dir); reflexivity).
    rewrite Hform. split; [reflexivity|]. split.
    + now apply startswith_append_l.
    + apply startswith_append.
Qed.

Lemma resolved_entry_below_base_witness :
  exists path,
    dict_get "DICOM_ROOT_PATH"
      (resolved_of "/mnt/data" (fst (__import_vars_from_file cfgvars_here)))
    = Some (VStr path)
    /\ combine_paths ["/mnt/data"; "this/is/a/path/to/root"] = Ok path
    /\ path = "/mnt/data"
              ++ (if PyStr.endswith PosixPath.sep "/mnt/data" then "" else PosixPath.sep)
              ++ to_host_separators "this/is/a/path/to/root"
    /\ PosixPath.isabs path = true
    /\ PyStr.startswith "/mnt/data" path = true.
Proof.
  apply (resolved_entry_below_base lab_host cfgvars_here (Some "/mnt/data/") None
           "/mnt/data" "DICOM_ROOT_PATH" "this/is/a/path/to/root"); reflexivity.
Defined.

(** In a table that mixes relative and absolute fragments, the entries
    with a relative fragment are below the base directory all the same. *)
Example mixed_table_entry :
  dict_get "GOOD"
    (resolved_of "/mnt/data"
       (fst (__import_vars_from_file [ ("_REL_GOOD", VStr "raw/dicom");
                                       ("_REL_BAD", VStr "/etc/passwd") ])))
  = Some (VStr "/mnt/data/raw/dicom").
Proof. reflexivity. Qed.

(** A tuple is data for [get_config_vars], as a list is. *)
Example tuple_is_reported :
  get_config_vars [ ("VOXEL_SIZE", VTuple [VInt 1; VInt 1; VInt 2]);
                    ("helper", VObj "function helper") ]
  = [ ("VOXEL_SIZE", VTuple [VInt 1; VInt 1; VInt 2]) ].
Proof. reflexivity. Qed.
